(** * Bounded multi-round tool orchestration of the RAG chatbot

    A shallow embedding of [backend/ai_generator.py] (class [AIGenerator])
    and of the content-search tool it drives, with the properties of the
    round loop: how many calls reach the generative-model endpoint, what
    each call carries, how tool failures are contained and which text
    becomes the answer.

    The endpoint ([self.client.messages.create]) and the tool manager
    ([tool_manager.execute_tool]) are collaborators of the code: they are
    modelled as arbitrary state transformers over an abstract environment,
    and every call to them is recorded in a trace of events. *)

From Stdlib Require Import String Ascii List ZArith Lia Bool DecimalString.
Import ListNotations.
Local Open Scope string_scope.
Local Open Scope list_scope.
Local Open Scope Z_scope.

Set Implicit Arguments.

(** ** Python values used by the code *)

(** A Python exception: its class and [str(e)]. *)
Record PyError : Type := mkPyError { exc_class : string; exc_str : string }.

Definition IndexError : PyError :=
  mkPyError "IndexError" "list index out of range".
Definition AttributeError : PyError :=
  mkPyError "AttributeError" "'ToolUseBlock' object has no attribute 'text'".
(** [Exception(msg)], as the tests raise it from a tool. *)
Definition Exception (msg : string) : PyError := mkPyError "Exception" msg.

(** What a call to a collaborator does: it returns or it raises. *)
Inductive Reply (A : Type) : Type :=
| Ok (a : A)
| Exn (e : PyError).
Arguments Ok {A} a.
Arguments Exn {A} e.

(** A JSON scalar of a tool input, and the input mapping (the keyword
    arguments of [execute_tool]). *)
Inductive ArgValue : Type :=
| ArgStr (s : string)
| ArgInt (n : Z).

Definition ToolInput : Type := list (string * ArgValue).

(** A tool schema advertised to the model; the code passes the list through
    without looking inside. *)
Record ToolDef : Type := mkToolDef { td_name : string; td_description : string }.

(** Content blocks of a model response: text or tool-invocation request. *)
Inductive ContentBlock : Type :=
| TextBlock (text : string)
| ToolUseBlock (id : string) (name : string) (input : ToolInput).

(** [content_block.type] *)
Definition block_type (content_block : ContentBlock) : string :=
  match content_block with
  | TextBlock _ => "text"
  | ToolUseBlock _ _ _ => "tool_use"
  end.

Record Response : Type := mkResponse {
  stop_reason : string;
  content : list ContentBlock
}.

(** [{"type": "tool_result", "tool_use_id": ..., "content": ...}] *)
Record ToolResult : Type := mkToolResult {
  tool_use_id : string;
  result_content : string
}.

(** The ["content"] of a message: the query text, the blocks of an assistant
    response, or the tool results of a round. *)
Inductive MessageContent : Type :=
| QueryText (text : string)
| Blocks (blocks : list ContentBlock)
| Results (tool_results : list ToolResult).

Record Message : Type := mkMessage {
  role : string;
  message_content : MessageContent
}.

(** [{"type": "auto"}] *)
Inductive ToolChoice : Type := Auto.

(** The keyword arguments of one [messages.create] call.  A key that the
    code does not set is [None]. *)
Record ApiParams : Type := mkApiParams {
  p_model : string;
  p_temperature : Z;
  p_max_tokens : Z;
  p_messages : list Message;
  p_system : string;
  p_tools : option (list ToolDef);
  p_tool_choice : option ToolChoice
}.

(** Python truthiness of an optional string and of an optional list. *)
Definition truthy_str (s : option string) : bool :=
  match s with
  | Some (String _ _) => true
  | _ => false
  end.

Definition truthy_list {A : Type} (l : option (list A)) : bool :=
  match l with
  | Some (_ :: _) => true
  | _ => false
  end.

Definition nonempty {A : Type} (l : list A) : bool :=
  match l with
  | [] => false
  | _ :: _ => true
  end.

Definition newline : string := String (ascii_of_nat 10) EmptyString.

(** ** Calls to collaborators, and the monad of the code *)

(** Everything the code does to the outside world, in order. *)
Inductive Event : Type :=
| ApiCall (params : ApiParams) (reply : Reply Response)
| ToolCall (name : string) (input : ToolInput) (reply : Reply string).

(** How a computation ends.  [OutOfFuel] is not a Python outcome: it marks
    a loop of the model stopped by its fuel, and is shown never to occur. *)
Inductive Outcome (A : Type) : Type :=
| Returned (a : A)
| Raised (e : PyError)
| OutOfFuel.
Arguments Returned {A} a.
Arguments Raised {A} e.
Arguments OutOfFuel {A}.

Section Orchestrator.

(** The state of the outside world (endpoint, tools, retrieval). *)
Variable Env : Type.

Record Run (A : Type) : Type := mkRun {
  outcome : Outcome A;
  env_after : Env;
  trace : list Event
}.

Definition M (A : Type) : Type := Env -> Run A.

Definition ret {A : Type} (a : A) : M A :=
  fun env => mkRun (Returned a) env [].

Definition bind {A B : Type} (m : M A) (k : A -> M B) : M B :=
  fun env =>
    let r := m env in
    match outcome r with
    | Returned a =>
        let r' := k a (env_after r) in
        mkRun (outcome r') (env_after r') (trace r ++ trace r')
    | Raised e => mkRun (Raised e) (env_after r) (trace r)
    | OutOfFuel => mkRun OutOfFuel (env_after r) (trace r)
    end.

(** [try: m  except Exception as e: handler e] *)
Definition try_except {A : Type} (m : M A) (handler : PyError -> M A) : M A :=
  fun env =>
    let r := m env in
    match outcome r with
    | Raised e =>
        let r' := handler e (env_after r) in
        mkRun (outcome r') (env_after r') (trace r ++ trace r')
    | _ => r
    end.

Notation "x <- m ;; k" := (bind m (fun x => k))
  (at level 61, m at next level, right associativity).
Notation "' pat <- m ;; k" := (bind m (fun x => match x with pat => k end))
  (at level 61, pat pattern, m at next level, right associativity).

(** The endpoint: [client.messages.create]. *)
Definition Client : Type := ApiParams -> Env -> Reply Response * Env.

(** The tool manager: [tool_manager.execute_tool]. *)
Record ToolManager : Type := mkToolManager {
  execute_tool : string -> ToolInput -> Env -> Reply string * Env
}.

Definition lift_reply {A : Type} (reply : Reply A) : Outcome A :=
  match reply with
  | Ok a => Returned a
  | Exn e => Raised e
  end.

Definition messages_create (client : Client) (params : ApiParams) : M Response :=
  fun env =>
    let (reply, env') := client params env in
    mkRun (lift_reply reply) env' [ApiCall params reply].

Definition call_execute_tool (tool_manager : ToolManager)
    (name : string) (input : ToolInput) : M string :=
  fun env =>
    let (reply, env') := execute_tool tool_manager name input env in
    mkRun (lift_reply reply) env' [ToolCall name input reply].

(** ** class AIGenerator *)

Record BaseParams : Type := mkBaseParams {
  bp_model : string;
  bp_temperature : Z;
  bp_max_tokens : Z
}.

Record AIGenerator : Type := mkAIGenerator {
  SYSTEM_PROMPT : string;
  client : Client;
  model : string;
  base_params : BaseParams
}.

(** [__init__]; the client is given instead of being built from an API key,
    and the text of the class constant [SYSTEM_PROMPT] is a parameter. *)
Definition init (system_prompt : string) (client : Client) (model : string)
  : AIGenerator :=
  mkAIGenerator system_prompt client model (mkBaseParams model 0 800).

(** [response.content[0].text] *)
Definition content0_text (response : Response) : Outcome string :=
  match content response with
  | [] => Raised IndexError
  | TextBlock text :: _ => Returned text
  | ToolUseBlock _ _ _ :: _ => Raised AttributeError
  end.

Definition return_text (response : Response) : M string :=
  fun env => mkRun (content0_text response) env [].

(** The [for content_block in response.content] loop of
    [_execute_single_round], with [tool_results] as accumulator. *)
Fixpoint dispatch_tool_calls (tool_manager : ToolManager)
    (blocks : list ContentBlock) (tool_results : list ToolResult)
  : M (list ToolResult) :=
  match blocks with
  | [] => ret tool_results
  | content_block :: rest =>
      if String.eqb (block_type content_block) "tool_use" then
        match content_block with
        | ToolUseBlock id name input =>
            tool_result <-
              try_except (call_execute_tool tool_manager name input)
                (fun e => ret ("Tool execution error: " ++ exc_str e)%string) ;;
            dispatch_tool_calls tool_manager rest
              (tool_results ++ [mkToolResult id tool_result])
        | TextBlock _ => dispatch_tool_calls tool_manager rest tool_results
        end
      else dispatch_tool_calls tool_manager rest tool_results
  end.

(** [_execute_single_round]: one round of tool calls, then the next call
    to the endpoint; it returns the updated messages and the next
    response. *)
Definition _execute_single_round (self : AIGenerator)
    (messages : list Message) (system_content : string)
    (tools : list ToolDef) (tool_manager : ToolManager) (response : Response)
  : M (list Message * Response) :=
  (* Add AI's tool use response to conversation *)
  let messages := messages ++ [mkMessage "assistant" (Blocks (content response))] in
  (* Execute all tool calls in this response *)
  tool_results <- dispatch_tool_calls tool_manager (content response) [] ;;
  (* Add tool results to conversation *)
  let messages :=
    if nonempty tool_results
    then messages ++ [mkMessage "user" (Results tool_results)]
    else messages in
  (* Get Claude's next response with tools still available *)
  let next_params :=
    mkApiParams (bp_model (base_params self))
                (bp_temperature (base_params self))
                (bp_max_tokens (base_params self))
                messages system_content (Some tools) (Some Auto) in
  next_response <- messages_create (client self) next_params ;;
  ret (messages, next_response).

(** The [while] loop of [_execute_rounds].  The loop state is
    [(messages, current_response, rounds_completed)]. *)
Fixpoint rounds_loop (fuel : nat) (self : AIGenerator)
    (system_content : string) (tools : list ToolDef)
    (tool_manager : ToolManager) (max_rounds : Z)
    (messages : list Message) (current_response : Response)
    (rounds_completed : Z) : M Response :=
  if String.eqb (stop_reason current_response) "tool_use"
     && (rounds_completed <? max_rounds)
  then
    match fuel with
    | O => fun env => mkRun OutOfFuel env []
    | S fuel' =>
        ' (messages, current_response) <-
          _execute_single_round self messages system_content tools
            tool_manager current_response ;;
        rounds_loop fuel' self system_content tools tool_manager max_rounds
          messages current_response (rounds_completed + 1)
    end
  else ret current_response.

(** [_execute_rounds].  The code copies the list of messages before the
    loop ([.copy()]), so the parameters of the first call are not touched
    by the rounds; inside the loop one list object is appended to, and a
    call is recorded here with the value the list has when the call is
    made. *)
Definition _execute_rounds (self : AIGenerator) (initial_response : Response)
    (base_params : ApiParams) (tool_manager : ToolManager) (max_rounds : Z)
  : M string :=
  let messages := p_messages base_params in
  let system_content := p_system base_params in
  let tools := match p_tools base_params with Some t => t | None => [] end in
  current_response <-
    rounds_loop (Z.to_nat max_rounds) self system_content tools tool_manager
      max_rounds messages initial_response 0 ;;
  (* Return final response text *)
  return_text current_response.

(** [generate_response]; an optional argument left out by the caller is
    [None]. *)
Definition generate_response (self : AIGenerator) (query : string)
    (conversation_history : option string) (tools : option (list ToolDef))
    (tool_manager : option ToolManager) (max_rounds : option Z) : M string :=
  let system_content :=
    match conversation_history with
    | Some history =>
        if truthy_str conversation_history
        then (SYSTEM_PROMPT self ++ newline ++ newline
              ++ "Previous conversation:" ++ newline ++ history)%string
        else SYSTEM_PROMPT self
    | None => SYSTEM_PROMPT self
    end in
  let api_params :=
    mkApiParams (bp_model (base_params self))
                (bp_temperature (base_params self))
                (bp_max_tokens (base_params self))
                [mkMessage "user" (QueryText query)] system_content
                None None in
  (* Add tools if available *)
  let api_params :=
    if truthy_list tools
    then mkApiParams (p_model api_params) (p_temperature api_params)
           (p_max_tokens api_params) (p_messages api_params)
           (p_system api_params) tools (Some Auto)
    else api_params in
  (* Get response from Claude *)
  response <- messages_create (client self) api_params ;;
  (* Handle tool execution if needed *)
  match tool_manager with
  | Some tm =>
      if String.eqb (stop_reason response) "tool_use" then
        let rounds_limit := match max_rounds with Some n => n | None => 2 end in
        _execute_rounds self response api_params tm rounds_limit
      else return_text response
  | None => return_text response
  end.

End Orchestrator.

Arguments ret {Env A} a.
Arguments return_text {Env} response.

(** ** Reading a trace *)

(** The calls that reached the endpoint, in order, with what came back. *)
Fixpoint api_calls (events : list Event) : list (ApiParams * Reply Response) :=
  match events with
  | [] => []
  | ApiCall params reply :: rest => (params, reply) :: api_calls rest
  | ToolCall _ _ _ :: rest => api_calls rest
  end.

(** The tool dispatches, in order. *)
Fixpoint tool_calls (events : list Event)
  : list (string * ToolInput * Reply string) :=
  match events with
  | [] => []
  | ApiCall _ _ :: rest => tool_calls rest
  | ToolCall name input reply :: rest => (name, input, reply) :: tool_calls rest
  end.

Definition api_replies (events : list Event) : list (Reply Response) :=
  map snd (api_calls events).

Fixpoint last_of {A : Type} (l : list A) : option A :=
  match l with
  | [] => None
  | [a] => Some a
  | _ :: rest => last_of rest
  end.

(** The reply is a response that asks for tools. *)
Definition requests_tools (reply : Reply Response) : Prop :=
  exists response, reply = Ok response /\ stop_reason response = "tool_use".

(** The reply is a response that does not ask for tools. *)
Definition answers (reply : Reply Response) : Prop :=
  exists response, reply = Ok response /\ stop_reason response <> "tool_use".

(** The tool-invocation requests of a response: call id, tool name, input. *)
Record ToolUse : Type := mkToolUse {
  use_id : string;
  use_name : string;
  use_input : ToolInput
}.

Fixpoint tool_uses (blocks : list ContentBlock) : list ToolUse :=
  match blocks with
  | [] => []
  | TextBlock _ :: rest => tool_uses rest
  | ToolUseBlock id name input :: rest => mkToolUse id name input :: tool_uses rest
  end.

(** The text that stands for a tool's reply in the message buffer. *)
Definition reply_text (reply : Reply string) : string :=
  match reply with
  | Ok text => text
  | Exn e => ("Tool execution error: " ++ exc_str e)%string
  end.

Definition tool_event (use : ToolUse) (reply : Reply string) : Event :=
  ToolCall (use_name use) (use_input use) reply.

Definition tool_result_of (use : ToolUse) (reply : Reply string) : ToolResult :=
  mkToolResult (use_id use) (reply_text reply).

Fixpoint zip_with {A B C : Type} (f : A -> B -> C) (l : list A) (l' : list B)
  : list C :=
  match l, l' with
  | a :: l, b :: l' => f a b :: zip_with f l l'
  | _, _ => []
  end.

Section Replay.

Variable Env : Type.

(** What the tool manager replies when the requests are run one after the
    other from [env], whatever each of them does. *)
Fixpoint run_tools (tool_manager : ToolManager Env) (uses : list ToolUse)
    (env : Env) : list (Reply string) * Env :=
  match uses with
  | [] => ([], env)
  | use :: rest =>
      let (reply, env') :=
        execute_tool tool_manager (use_name use) (use_input use) env in
      let (replies, env'') := run_tools tool_manager rest env' in
      (reply :: replies, env'')
  end.

(** The tool results that [_execute_single_round] collects from [env]. *)
Definition round_results (tool_manager : ToolManager Env)
    (response : Response) (env : Env) : list ToolResult :=
  zip_with tool_result_of (tool_uses (content response))
    (fst (run_tools tool_manager (tool_uses (content response)) env)).

(** The buffer after a round, and the parameters of its follow-up call. *)
Definition round_messages (messages : list Message) (response : Response)
    (tool_results : list ToolResult) : list Message :=
  messages ++ mkMessage "assistant" (Blocks (content response))
    :: (if nonempty tool_results
        then [mkMessage "user" (Results tool_results)] else []).

Definition round_params (self : AIGenerator Env) (system_content : string)
    (tools : list ToolDef) (messages : list Message) : ApiParams :=
  mkApiParams (bp_model (base_params self)) (bp_temperature (base_params self))
    (bp_max_tokens (base_params self)) messages system_content
    (Some tools) (Some Auto).

(** The loop of [_execute_rounds] as a relation between its state on entry
    ([rounds_completed], [messages], [current_response]), the endpoint calls
    it makes and how it ends. *)
Inductive rounds (self : AIGenerator Env) (system_content : string)
    (tools : list ToolDef) (max_rounds : Z)
  : Z -> list Message -> Response ->
    list (ApiParams * Reply Response) -> Outcome Response -> Prop :=
| rounds_done : forall rounds_completed messages response,
    String.eqb (stop_reason response) "tool_use"
      && (rounds_completed <? max_rounds) = false ->
    rounds self system_content tools max_rounds
      rounds_completed messages response [] (Returned response)
| rounds_raise : forall rounds_completed messages response tool_results e,
    String.eqb (stop_reason response) "tool_use"
      && (rounds_completed <? max_rounds) = true ->
    map tool_use_id tool_results = map use_id (tool_uses (content response)) ->
    rounds self system_content tools max_rounds
      rounds_completed messages response
      [(round_params self system_content tools
          (round_messages messages response tool_results), Exn e)]
      (Raised e)
| rounds_next : forall rounds_completed messages response tool_results
                       next_response calls out,
    String.eqb (stop_reason response) "tool_use"
      && (rounds_completed <? max_rounds) = true ->
    map tool_use_id tool_results = map use_id (tool_uses (content response)) ->
    rounds self system_content tools max_rounds
      (rounds_completed + 1)
      (round_messages messages response tool_results) next_response
      calls out ->
    rounds self system_content tools max_rounds
      rounds_completed messages response
      ((round_params self system_content tools
          (round_messages messages response tool_results), Ok next_response)
       :: calls)
      out.

End Replay.

(** ** Vocabulary of the statements *)

(** The replies of a whole exchange: the response the loop starts from,
    then the replies to the loop's calls. *)
Definition exchange (response : Response)
    (calls : list (ApiParams * Reply Response)) : list (Reply Response) :=
  Ok response :: map snd calls.

(** What a reply of the endpoint becomes when it is the last one:
    [response.content[0].text], or the endpoint's exception. *)
Definition answer_of (reply : Reply Response) : Outcome string :=
  match reply with
  | Ok response => content0_text response
  | Exn e => Raised e
  end.

(** The tools that the follow-up calls offer:
    [base_params.get("tools", [])]. *)
Definition round_tools (tools : option (list ToolDef)) : list ToolDef :=
  match (if truthy_list tools then tools else None) with
  | Some t => t
  | None => []
  end.

(** The call [params'] carries the buffer of the call [params], the
    assistant message made of the reply to [params] and, when that reply
    has tool requests, one user message with a result per request. *)
Definition appended_by_round (params : ApiParams) (reply : Reply Response)
    (params' : ApiParams) : Prop :=
  exists response tool_results,
    reply = Ok response /\
    map tool_use_id tool_results = map use_id (tool_uses (content response)) /\
    p_messages params'
    = p_messages params ++ mkMessage "assistant" (Blocks (content response))
        :: (if nonempty tool_results
            then [mkMessage "user" (Results tool_results)] else []).

(** The parameters of the first call of [generate_response]. *)
Definition first_system (system_prompt : string)
    (conversation_history : option string) : string :=
  match conversation_history with
  | Some (String c history) =>
      (system_prompt ++ newline ++ newline ++ "Previous conversation:"
       ++ newline ++ String c history)%string
  | _ => system_prompt
  end.

Definition first_params (model : BaseParams) (system_prompt query : string)
    (conversation_history : option string) (tools : option (list ToolDef))
  : ApiParams :=
  mkApiParams (bp_model model) (bp_temperature model) (bp_max_tokens model)
    [mkMessage "user" (QueryText query)]
    (first_system system_prompt conversation_history)
    (if truthy_list tools then tools else None)
    (if truthy_list tools then Some Auto else None).

(** [rounds_limit] of [generate_response]. *)
Definition rounds_limit (max_rounds : option Z) : Z :=
  match max_rounds with
  | Some n => n
  | None => 2
  end.

(** The endpoint never asks for a tool when it was offered none. *)
Definition honours_tools {Env : Type} (client : Client Env) : Prop :=
  forall params env,
    p_tools params = None -> ~ requests_tools (fst (client params env)).

(** The last call to the endpoint withdrew the tools. *)
Definition last_call_without_tools (events : list Event) : Prop :=
  exists params reply,
    last_of (api_calls events) = Some (params, reply) /\
    p_tools params = None /\ p_tool_choice params = None.

(** The model still asks for tools at the round cap: the first [R] replies
    of the run are responses that ask for tools. *)
Definition asks_up_to_cap (R : Z) (replies : list (Reply Response)) : Prop :=
  forall i : nat,
    Z.of_nat i < R ->
    exists reply, nth_error replies i = Some reply /\ requests_tools reply.

(** The specification's round cap: a model that still asks for tools at the
    cap gets a last call that withdraws them. *)
Definition forced_final_call {Env : Type} (self : AIGenerator Env)
    (query : string) (conversation_history : option string)
    (tools : option (list ToolDef)) (tool_manager : ToolManager Env)
    (max_rounds : option Z) (env : Env) : Prop :=
  let run := generate_response self query conversation_history tools
               (Some tool_manager) max_rounds env in
  asks_up_to_cap (rounds_limit max_rounds) (api_replies (trace run)) ->
  Z.of_nat (length (api_calls (trace run))) = rounds_limit max_rounds + 1 /\
  last_call_without_tools (trace run).

(** ** A scripted environment

    [unittest.mock] with [side_effect] lists, as the tests build it: each
    call consumes the next scripted reply. *)

Record MockEnv : Type := mkMockEnv {
  create_side_effect : list (Reply Response);
  execute_tool_side_effect : list (Reply string)
}.

Definition StopIteration : PyError := mkPyError "StopIteration" "".

Definition mock_create : Client MockEnv :=
  fun _ env =>
    match create_side_effect env with
    | [] => (Exn StopIteration, env)
    | reply :: rest => (reply, mkMockEnv rest (execute_tool_side_effect env))
    end.

Definition mock_tool_manager : ToolManager MockEnv :=
  mkToolManager
    (fun _ _ env =>
       match execute_tool_side_effect env with
       | [] => (Exn StopIteration, env)
       | reply :: rest => (reply, mkMockEnv (create_side_effect env) rest)
       end).

Definition ai_gen : AIGenerator MockEnv :=
  init "You are an AI assistant specialized in course materials."
    mock_create "claude-sonnet-4-20250514".

Definition search_def : ToolDef :=
  mkToolDef "search_course_content" "Search content".
Definition outline_def : ToolDef :=
  mkToolDef "get_course_outline" "Get course outline".

Definition tool_use_response (id name : string) (input : ToolInput) : Response :=
  mkResponse "tool_use" [ToolUseBlock id name input].
Definition text_response (text : string) : Response :=
  mkResponse "end_turn" [TextBlock text].

(** [test_two_sequential_tool_calls_success] *)
Definition two_rounds_env : MockEnv :=
  mkMockEnv
    [Ok (tool_use_response "t1" "get_course_outline"
           [("course_title", ArgStr "MCP")]);
     Ok (tool_use_response "t2" "search_course_content"
           [("query", ArgStr "basics"); ("course_name", ArgStr "MCP")]);
     Ok (text_response "Combined answer from both tools")]
    [Ok "Course outline: Lesson 1: Intro, Lesson 2: Advanced";
     Ok "Search results: MCP basics involve connecting tools..."].

Definition two_rounds_run : Run MockEnv string :=
  generate_response ai_gen
    "Tell me about MCP course structure and basic concepts" None
    (Some [outline_def; search_def]) (Some mock_tool_manager) (Some 2)
    two_rounds_env.

(** A model that asks for tools on every call, the last one with some
    words first. *)
Definition persistent_env : MockEnv :=
  mkMockEnv
    [Ok (tool_use_response "t1" "search_course_content" [("query", ArgStr "more")]);
     Ok (tool_use_response "t2" "search_course_content" [("query", ArgStr "more")]);
     Ok (mkResponse "tool_use"
           [TextBlock "Let me search again.";
            ToolUseBlock "t3" "search_course_content" [("query", ArgStr "more")]]);
     Ok (text_response "Maximum tool rounds reached")]
    [Ok "Tool result"; Ok "Tool result"; Ok "Tool result"].

Definition persistent_run : Run MockEnv string :=
  generate_response ai_gen "Keep searching for more information" None
    (Some [search_def]) (Some mock_tool_manager) (Some 2) persistent_env.

(** One response with two requests, the first of which fails. *)
Definition failing_tool_env : MockEnv :=
  mkMockEnv
    [Ok (text_response "Based on the outline, the search failed")]
    [Exn (Exception "Search service unavailable");
     Ok "Course outline: Lesson 1, 2, 3"].

Definition two_requests : Response :=
  mkResponse "tool_use"
    [ToolUseBlock "t1" "search_course_content" [("query", ArgStr "advanced")];
     ToolUseBlock "t2" "get_course_outline" [("course_title", ArgStr "MCP")]].

(** [test_no_tools_available_fallback] *)
Definition direct_env : MockEnv :=
  mkMockEnv [Ok (text_response "Direct answer without tools")] [].

(** A first response that says a few words and asks for a tool. *)
Definition preamble_response : Response :=
  mkResponse "tool_use"
    [TextBlock "I will look that up.";
     ToolUseBlock "t1" "search_course_content" [("query", ArgStr "Python")]].

Definition preamble_env : MockEnv :=
  mkMockEnv [Ok preamble_response; Ok (text_response "Python is a language")]
            [Ok "Python programming content"].

Definition python_params : ApiParams :=
  first_params (base_params ai_gen) (SYSTEM_PROMPT ai_gen) "What is Python?"
    None (Some [search_def]).

Definition no_manager_run : Run MockEnv string :=
  generate_response ai_gen "What is Python?" None (Some [search_def]) None
    None preamble_env.

Definition zero_rounds_run : Run MockEnv string :=
  generate_response ai_gen "What is Python?" None (Some [search_def])
    (Some mock_tool_manager) (Some 0) preamble_env.

Definition direct_run : Run MockEnv string :=
  generate_response ai_gen "Search for Python basics" None None None (Some 2)
    direct_env.

(** [test_tool_call_followed_by_direct_response]: one round, then the
    answer. *)
Definition one_round_run : Run MockEnv string :=
  generate_response ai_gen "What is Python?" None (Some [search_def])
    (Some mock_tool_manager) (Some 2) preamble_env.

(** A run with [max_rounds = 1] that ends at the cap on a response made of
    a tool request alone. *)
Definition cap_env : MockEnv :=
  mkMockEnv
    [Ok (tool_use_response "t1" "search_course_content" [("query", ArgStr "test")]);
     Ok (tool_use_response "t2" "search_course_content" [("query", ArgStr "more")])]
    [Ok "Tool result"].

Definition cap_run : Run MockEnv string :=
  generate_response ai_gen "Search for information" None (Some [search_def])
    (Some mock_tool_manager) (Some 1) cap_env.

(** The round of [two_requests] against a failing tool. *)
Definition failing_tool_run : Run MockEnv (list Message * Response) :=
  _execute_single_round ai_gen [mkMessage "user" (QueryText "MCP?")]
    "system" [search_def; outline_def] mock_tool_manager two_requests
    failing_tool_env.

(** [test_maximum_rounds_enforced] *)
Definition maximum_rounds_env : MockEnv :=
  mkMockEnv
    [Ok (tool_use_response "t1" "search_course_content" [("query", ArgStr "more")]);
     Ok (tool_use_response "t1" "search_course_content" [("query", ArgStr "more")]);
     Ok (text_response "Maximum tool rounds reached")]
    [Ok "Tool result"; Ok "Tool result"; Ok "Tool result"].

Definition maximum_rounds_run : Run MockEnv string :=
  generate_response ai_gen "Keep searching for more information" None
    (Some [search_def]) (Some mock_tool_manager) (Some 2) maximum_rounds_env.

(** [test_error_in_first_round_handled_gracefully] *)
Definition first_round_error_env : MockEnv :=
  mkMockEnv
    [Ok (tool_use_response "t1" "search_course_content" [("query", ArgStr "test")]);
     Ok (text_response "I encountered an error searching for that information")]
    [Exn (Exception "Database connection failed")].

Definition first_round_error_run : Run MockEnv string :=
  generate_response ai_gen "Search for something" None (Some [search_def])
    (Some mock_tool_manager) (Some 2) first_round_error_env.

(** An endpoint that answers in plain text when it is offered no tool, and
    follows its script otherwise. *)
Definition honest_create : Client MockEnv :=
  fun params env =>
    match p_tools params with
    | None => (Ok (text_response "Direct answer without tools"), env)
    | Some _ => mock_create params env
    end.

Definition honest_gen : AIGenerator MockEnv :=
  init "You are an AI assistant specialized in course materials."
    honest_create "claude-sonnet-4-20250514".

(** No tool is registered, the tool manager is there. *)
Definition empty_registry_run : Run MockEnv string :=
  generate_response honest_gen "Search for Python basics" None (Some [])
    (Some mock_tool_manager) None persistent_env.

(** ** Vocabulary of the further properties *)

(** The tool name and input of each request of a reply, in order. *)
Definition requests_of (reply : Reply Response) : list (string * ToolInput) :=
  match reply with
  | Ok response =>
      map (fun use => (use_name use, use_input use))
          (tool_uses (content response))
  | Exn _ => []
  end.

(** The roles of a buffer after [k] complete rounds. *)
Fixpoint round_roles (k : nat) : list string :=
  match k with
  | O => ["user"]
  | S k => round_roles k ++ ["assistant"; "user"]
  end.

(** The endpoint fails on the follow-up call of the first round. *)
Definition endpoint_error_env : MockEnv :=
  mkMockEnv
    [Ok (tool_use_response "t1" "search_course_content" [("query", ArgStr "test")]);
     Exn (Exception "Rate limit exceeded")]
    [Ok "Tool result"].

Definition endpoint_error_run : Run MockEnv string :=
  generate_response ai_gen "Search for something" None (Some [search_def])
    (Some mock_tool_manager) (Some 2) endpoint_error_env.

(** A negative round limit. *)
Definition negative_rounds_run : Run MockEnv string :=
  generate_response ai_gen "Keep searching for more information" None
    (Some [search_def]) (Some mock_tool_manager) (Some (-1)) persistent_env.

(** No tool is offered, yet the scripted endpoint asks for one. *)
Definition unoffered_run : Run MockEnv string :=
  generate_response ai_gen "Keep searching for more information" None None
    (Some mock_tool_manager) (Some 2) persistent_env.

(** ** The content-search tool *)

Module CourseSearchTool.

(** Modelled from the spec: the content-search tool and the retrieval
    collaborator it calls ([search_tools.py], [vector_store.py]) are not
    among the sources; only their tests are.  The data follow sections 3
    and 6 of the specification (matched passages with course title and
    lesson number, an optional error message, citations as a label with an
    optional link), [execute] follows section 4.2, and the literal texts
    are those that [tests/test_search_tools.py] expects.  How the formatted
    passages are joined is not specified: the separator is a field of the
    tool. *)
Record Passage : Type := mkPassage {
  passage_text : string;
  course_title : string;
  lesson_number : Z
}.

Record SearchResults : Type := mkSearchResults {
  passages : list Passage;
  error : option string
}.

Record Citation : Type := mkCitation {
  label : string;
  link : option string
}.

(** What the tool asks of its store; the tests replace both methods by
    mocks. *)
Record VectorStore : Type := mkVectorStore {
  search : string -> option string -> option Z -> SearchResults;
  get_lesson_link : string -> Z -> option string
}.

Record Tool : Type := mkTool {
  store : VectorStore;
  separator : string
}.

(** [SearchResults.empty(error_msg)] of the tests. *)
Definition empty (error_msg : string) : SearchResults :=
  mkSearchResults [] (Some error_msg).

Definition string_of_Z (n : Z) : string := NilZero.string_of_int (Z.to_int n).

Definition lesson_label (p : Passage) : string :=
  (course_title p ++ " - Lesson " ++ string_of_Z (lesson_number p))%string.

Definition format_passage (p : Passage) : string :=
  ("[" ++ lesson_label p ++ "] " ++ passage_text p)%string.

Definition citation_of (vector_store : VectorStore) (p : Passage) : Citation :=
  mkCitation (lesson_label p)
    (get_lesson_link vector_store (course_title p) (lesson_number p)).

Definition no_content : string := "No relevant content found".

Definition error_message (results : SearchResults) : string :=
  match error results with
  | Some message => message
  | None => ""
  end.

(** Modelled from the spec: [execute(query, course_name, lesson_number)] of
    the content-search tool, run from the tool's citation list
    [last_sources]; it gives the tool's reply and the new list. *)
Definition execute (tool : Tool) (query : string)
    (course_name : option string) (lesson : option Z)
    (last_sources : list Citation) : Reply string * list Citation :=
  let results := search (store tool) query course_name lesson in
  if truthy_str (error results) then (Ok (error_message results), last_sources)
  else if nonempty (passages results)
  then (Ok (String.concat (separator tool)
              (map format_passage (passages results))),
        last_sources ++ map (citation_of (store tool)) (passages results))
  else (Ok no_content, last_sources).

(** The reading under which [execute] itself formats a failure: never
    an exception, the sentinel for an empty result, and a failure message
    [m] of the store returned as ["Search error: m"]. *)
Definition formats_search_error (tool : Tool) : Prop :=
  forall query course_name lesson last_sources,
    let results := search (store tool) query course_name lesson in
    (exists text,
        fst (execute tool query course_name lesson last_sources) = Ok text) /\
    (truthy_str (error results) = false -> passages results = [] ->
     fst (execute tool query course_name lesson last_sources)
     = Ok no_content) /\
    (forall message,
        error results = Some message -> message <> "" ->
        fst (execute tool query course_name lesson last_sources)
        = Ok ("Search error: " ++ message)%string).

Definition double_newline : string := (newline ++ newline)%string.

(** [test_execute_with_search_error]: a mocked store reports a failure. *)
Definition failing_store : VectorStore :=
  mkVectorStore (fun _ _ _ => empty "Database connection failed")
                (fun _ _ => None).

(** [test_execute_with_empty_results_zero_max_results] *)
Definition empty_store : VectorStore :=
  mkVectorStore (fun _ _ _ => empty "") (fun _ _ => None).

(** [test_sources_tracking]: two passages of two courses. *)
Definition two_passages : list Passage :=
  [mkPassage "Content 1" "Course A" 1; mkPassage "Content 2" "Course B" 2].

Definition two_passages_store : VectorStore :=
  mkVectorStore
    (fun _ _ _ => mkSearchResults two_passages None)
    (fun course n =>
       if String.eqb course "Course A" then Some "https://example.com/lesson1"
       else Some "https://example.com/lesson2").

Definition two_passages_tool : Tool := mkTool two_passages_store double_newline.

End CourseSearchTool.

(** * Properties *)

(** ** Traces *)

Lemma api_calls_app (events events' : list Event) :
  api_calls (events ++ events') = api_calls events ++ api_calls events'.
Proof.
  induction events as [|[params reply|name input reply] events IH]; simpl;
    [reflexivity | now rewrite IH | exact IH].
Qed.

Lemma tool_calls_app (events events' : list Event) :
  tool_calls (events ++ events') = tool_calls events ++ tool_calls events'.
Proof.
  induction events as [|[params reply|name input reply] events IH]; simpl;
    [reflexivity | exact IH | now rewrite IH].
Qed.

Lemma api_calls_tool_events (uses : list ToolUse) (replies : list (Reply string)) :
  api_calls (zip_with tool_event uses replies) = [].
Proof.
  revert replies; induction uses as [|use uses IH]; intros [|reply replies];
    simpl; auto.
Qed.

Lemma zip_with_nth_error {A B C : Type} (f : A -> B -> C) (l : list A) (l' : list B)
    (i : nat) (a : A) (b : B) :
  nth_error l i = Some a -> nth_error l' i = Some b ->
  nth_error (zip_with f l l') i = Some (f a b).
Proof.
  revert l l'; induction i as [|i IH]; intros [|x l] [|y l'] Ha Hb;
    simpl in *; try discriminate.
  - now inversion Ha; inversion Hb.
  - now apply IH.
Qed.

Lemma last_of_app {A : Type} (l : list A) (a : A) : last_of (l ++ [a]) = Some a.
Proof.
  induction l as [|x l IH]; simpl; [reflexivity|].
  destruct (l ++ [a]) eqn:E; [now destruct l | exact IH].
Qed.

Lemma last_of_nth_error {A : Type} (l : list A) (a : A) :
  last_of l = Some a -> nth_error l (Nat.pred (length l)) = Some a.
Proof.
  induction l as [|x [|y l] IH]; simpl; intros H; try discriminate; auto.
Qed.

(** ** One round *)

Section RoundFacts.

Variable Env : Type.
Variable self : AIGenerator Env.
Variable tool_manager : ToolManager Env.

Lemma run_tools_length (uses : list ToolUse) (env : Env) :
  length (fst (run_tools tool_manager uses env)) = length uses.
Proof.
  revert env; induction uses as [|use uses IH]; intros env; simpl; auto.
  destruct (execute_tool tool_manager (use_name use) (use_input use) env)
    as [reply env'].
  specialize (IH env').
  destruct (run_tools tool_manager uses env') as [replies env'']; simpl in *.
  now rewrite IH.
Qed.

(** The dispatch loop runs every request of the response, in order, and
    always returns: a failing tool only changes the text of its result. *)
Lemma dispatch_tool_calls_run (blocks : list ContentBlock)
    (tool_results : list ToolResult) (env : Env) :
  dispatch_tool_calls tool_manager blocks tool_results env
  = mkRun
      (Returned (tool_results ++
         zip_with tool_result_of (tool_uses blocks)
           (fst (run_tools tool_manager (tool_uses blocks) env))))
      (snd (run_tools tool_manager (tool_uses blocks) env))
      (zip_with tool_event (tool_uses blocks)
         (fst (run_tools tool_manager (tool_uses blocks) env))).
Proof.
  revert tool_results env.
  induction blocks as [|[text|id name input] blocks IH]; intros acc env.
  - simpl. unfold ret. now rewrite app_nil_r.
  - simpl. apply IH.
  - simpl. unfold bind at 1, try_except, call_execute_tool.
    destruct (execute_tool tool_manager name input env) as [[text|e] env'];
      simpl; rewrite IH; simpl;
      destruct (run_tools tool_manager (tool_uses blocks) env')
        as [replies env'']; simpl;
      now rewrite <- app_assoc.
Qed.

Lemma tool_result_ids (uses : list ToolUse) (replies : list (Reply string)) :
  length replies = length uses ->
  map tool_use_id (zip_with tool_result_of uses replies) = map use_id uses.
Proof.
  revert replies; induction uses as [|use uses IH]; intros [|reply replies] H;
    simpl in *; try discriminate; auto.
  f_equal. apply IH. now inversion H.
Qed.

Lemma execute_single_round_run (messages : list Message)
    (system_content : string) (tools : list ToolDef) (response : Response)
    (env : Env) :
  let uses := tool_uses (content response) in
  let replies := fst (run_tools tool_manager uses env) in
  let env' := snd (run_tools tool_manager uses env) in
  let messages' := round_messages messages response
      (round_results tool_manager response env) in
  let next_params := round_params self system_content tools messages' in
  let reply := fst (client self next_params env') in
  _execute_single_round self messages system_content tools tool_manager
    response env
  = mkRun
      (match reply with
       | Ok next_response => Returned (messages', next_response)
       | Exn e => Raised e
       end)
      (snd (client self next_params env'))
      (zip_with tool_event uses replies ++ [ApiCall next_params reply]).
Proof.
  intros uses replies env' messages' next_params reply.
  unfold _execute_single_round, bind at 1.
  rewrite dispatch_tool_calls_run. simpl.
  fold uses replies env'.
  unfold messages_create, bind, ret.
  assert (Hm : (if nonempty (zip_with tool_result_of uses replies)
                then (messages ++ [mkMessage "assistant" (Blocks (content response))])
                       ++ [mkMessage "user" (Results (zip_with tool_result_of uses replies))]
                else messages ++ [mkMessage "assistant" (Blocks (content response))])
               = messages').
  { unfold messages', round_messages, round_results. fold uses replies.
    destruct (nonempty (zip_with tool_result_of uses replies));
      [now rewrite <- app_assoc | reflexivity]. }
  rewrite Hm. fold (round_params self system_content tools messages').
  fold next_params. subst reply.
  destruct (client self next_params env') as [[next_response|e] env'']; simpl;
    reflexivity.
Qed.

End RoundFacts.

(** ** The round loop *)

Section LoopFacts.

Variable Env : Type.
Variable self : AIGenerator Env.
Variable tool_manager : ToolManager Env.
Variable system_content : string.
Variable tools : list ToolDef.
Variable max_rounds : Z.

(** With fuel for the rounds that remain, the loop behaves as [rounds]
    describes; in particular the fuel is never exhausted. *)
Lemma rounds_loop_rounds (fuel : nat) :
  forall (messages : list Message) (response : Response)
         (rounds_completed : Z) (env : Env),
    (Z.to_nat (max_rounds - rounds_completed) <= fuel)%nat ->
    let run := rounds_loop fuel self system_content tools tool_manager
                 max_rounds messages response rounds_completed env in
    rounds self system_content tools max_rounds
      rounds_completed messages response (api_calls (trace run)) (outcome run).
Proof.
  induction fuel as [|fuel IH]; intros messages response c env Hfuel; simpl;
    destruct (String.eqb (stop_reason response) "tool_use" && (c <? max_rounds))
      eqn:Hcond.
  - apply andb_prop in Hcond as [_ Hlt]. apply Z.ltb_lt in Hlt. lia.
  - now apply rounds_done.
  - pose proof (execute_single_round_run self tool_manager messages
                  system_content tools response env) as Hrun.
    cbv zeta in Hrun. unfold bind. rewrite Hrun. clear Hrun. simpl.
    set (env' := snd (run_tools tool_manager (tool_uses (content response)) env)).
    set (results := round_results tool_manager response env).
    set (params := round_params self system_content tools
                     (round_messages messages response results)).
    assert (Hids : map tool_use_id results
                   = map use_id (tool_uses (content response))).
    { apply tool_result_ids, run_tools_length. }
    destruct (fst (client self params env')) as [next_response|e]; simpl.
    + rewrite !api_calls_app, api_calls_tool_events. simpl.
      apply rounds_next; auto.
      apply IH. apply andb_prop in Hcond as [_ Hlt]. apply Z.ltb_lt in Hlt. lia.
    + rewrite api_calls_app, api_calls_tool_events. simpl.
      now apply rounds_raise.
  - now apply rounds_done.
Qed.

(** *** What [rounds] says about the calls and replies of a run *)

Lemma rounds_length (c : Z) (messages : list Message) (response : Response)
    (calls : list (ApiParams * Reply Response)) (out : Outcome Response) :
  rounds self system_content tools max_rounds c messages response calls out ->
  (length calls <= Z.to_nat (max_rounds - c))%nat.
Proof.
  induction 1 as [c m r Hc | c m r res e Hc Hids
                 | c m r res r' calls out Hc Hids Hrounds IH]; simpl.
  - lia.
  - apply andb_prop in Hc as [_ Hlt]. apply Z.ltb_lt in Hlt. lia.
  - apply andb_prop in Hc as [_ Hlt]. apply Z.ltb_lt in Hlt. lia.
Qed.

(** Every reply but the last one asks for tools. *)
Lemma rounds_requests (c : Z) (messages : list Message) (response : Response)
    (calls : list (ApiParams * Reply Response)) (out : Outcome Response) :
  rounds self system_content tools max_rounds c messages response calls out ->
  forall (i : nat) (reply : Reply Response),
    nth_error (exchange response calls) i = Some reply ->
    (S i < length (exchange response calls))%nat ->
    requests_tools reply.
Proof.
  unfold exchange.
  induction 1 as [c m r Hc | c m r res e Hc Hids
                 | c m r res r' calls out Hc Hids Hrounds IH];
    intros [|i] reply Hnth Hlen; simpl in *; try lia.
  - inversion Hnth; subst. exists r. split; [reflexivity|].
    apply andb_prop in Hc as [Hstop _]. now apply String.eqb_eq.
  - inversion Hnth; subst. exists r. split; [reflexivity|].
    apply andb_prop in Hc as [Hstop _]. now apply String.eqb_eq.
  - apply (IH i reply Hnth). lia.
Qed.

(** The loop ends on the last reply; if that reply still asks for tools,
    the cap is reached. *)
Lemma rounds_last (c : Z) (messages : list Message) (response : Response)
    (calls : list (ApiParams * Reply Response)) (out : Outcome Response) :
  rounds self system_content tools max_rounds c messages response calls out ->
  exists reply,
    last_of (exchange response calls) = Some reply /\
    out = lift_reply reply /\
    (requests_tools reply -> max_rounds <= c + Z.of_nat (length calls)).
Proof.
  unfold exchange.
  induction 1 as [c m r Hc | c m r res e Hc Hids
                 | c m r res r' calls out Hc Hids Hrounds IH].
  - exists (Ok r). repeat split; simpl.
    intros (r0 & Heq & Hstop). inversion Heq; subst r0.
    apply String.eqb_eq in Hstop. rewrite Hstop in Hc. simpl in Hc.
    apply Z.ltb_ge in Hc. lia.
  - exists (Exn e). repeat split; simpl.
    intros (r0 & Heq & _). discriminate.
  - destruct IH as (reply & Hlast & Hout & Hcap).
    exists reply. repeat split; auto.
    intros Hreq. specialize (Hcap Hreq). simpl length. lia.
Qed.

(** Every call of the loop offers the tools, with automatic choice. *)
Lemma rounds_offers_tools (c : Z) (messages : list Message)
    (response : Response) (calls : list (ApiParams * Reply Response))
    (out : Outcome Response) :
  rounds self system_content tools max_rounds c messages response calls out ->
  Forall (fun call => p_tools (fst call) = Some tools
                      /\ p_tool_choice (fst call) = Some Auto) calls.
Proof.
  induction 1; repeat constructor; auto.
Qed.

(** Each call carries the buffer of the previous one, grown by a round. *)
Lemma rounds_append_only (c : Z) (messages : list Message)
    (response : Response) (calls : list (ApiParams * Reply Response))
    (out : Outcome Response) :
  rounds self system_content tools max_rounds c messages response calls out ->
  forall (params0 : ApiParams),
    p_messages params0 = messages ->
    forall i params reply params' reply',
      nth_error ((params0, Ok response) :: calls) i = Some (params, reply) ->
      nth_error ((params0, Ok response) :: calls) (S i) = Some (params', reply') ->
      appended_by_round params reply params'.
Proof.
  induction 1 as [c m r Hc | c m r res e Hc Hids
                 | c m r res r' calls out Hc Hids Hrounds IH];
    intros params0 Hp0 i params reply params' reply' Hi HSi.
  - destruct i; simpl in HSi; discriminate.
  - destruct i as [|[|i]]; simpl in *; try discriminate.
    inversion Hi; inversion HSi; subst.
    exists r, res. now repeat split.
  - destruct i as [|i].
    + simpl in *. inversion Hi; inversion HSi; subst.
      exists r, res. now repeat split.
    + apply (IH (round_params self system_content tools (round_messages m r res))
                eq_refl i params reply params' reply'); assumption.
Qed.

End LoopFacts.

(** ** [generate_response] *)

Section GenerateFacts.

Variable Env : Type.
Variable self : AIGenerator Env.

Lemma last_of_In {A : Type} (l : list A) (a : A) : last_of l = Some a -> In a l.
Proof.
  induction l as [|x [|y l] IH]; simpl; intros H; try discriminate.
  - left. congruence.
  - right. now apply IH.
Qed.

Lemma last_of_map {A B : Type} (f : A -> B) (l : list A) :
  last_of (map f l) = option_map f (last_of l).
Proof.
  induction l as [|x [|y l] IH]; simpl in *; auto.
Qed.

(** The first call, and what follows it. *)
Lemma generate_response_first_call (query : string)
    (conversation_history : option string) (tools : option (list ToolDef))
    (tool_manager : option (ToolManager Env)) (max_rounds : option Z)
    (env : Env) :
  let params := first_params (base_params self) (SYSTEM_PROMPT self) query
                  conversation_history tools in
  let reply := fst (client self params env) in
  let env' := snd (client self params env) in
  generate_response self query conversation_history tools tool_manager
    max_rounds env
  = match reply, tool_manager with
    | Exn e, _ => mkRun (Raised e) env' [ApiCall params reply]
    | Ok response, Some tm =>
        if String.eqb (stop_reason response) "tool_use" then
          let r := _execute_rounds self response params tm
                     (rounds_limit max_rounds) env' in
          mkRun (outcome r) (env_after r) (ApiCall params reply :: trace r)
        else mkRun (content0_text response) env' [ApiCall params reply]
    | Ok response, None =>
        mkRun (content0_text response) env' [ApiCall params reply]
    end.
Proof.
  intros params reply env'. unfold generate_response.
  match goal with
  | |- bind (messages_create _ ?p) _ _ = _ =>
      replace p with params
        by (unfold params, first_params, first_system;
            destruct tools as [[|t ts]|], conversation_history as [[|c h]|];
            reflexivity)
  end.
  unfold bind, messages_create, reply, env'.
  destruct (client self params env) as [[response|e] env0]; simpl.
  - destruct tool_manager as [tm|]; simpl.
    + destruct (String.eqb (stop_reason response) "tool_use"); reflexivity.
    + reflexivity.
  - reflexivity.
Qed.

(** [_execute_rounds]: the calls are those of the loop, which [rounds]
    describes, and the answer is read from the reply the loop ends on. *)
Lemma execute_rounds_rounds (tool_manager : ToolManager Env)
    (response : Response) (params : ApiParams) (max_rounds : Z) (env : Env) :
  let run := _execute_rounds self response params tool_manager max_rounds env in
  let tools := match p_tools params with Some t => t | None => [] end in
  exists out,
    rounds self (p_system params) tools max_rounds 0 (p_messages params)
      response (api_calls (trace run)) out /\
    exists reply,
      last_of (exchange response (api_calls (trace run))) = Some reply /\
      out = lift_reply reply /\ outcome run = answer_of reply.
Proof.
  intros run tools.
  pose proof (@rounds_loop_rounds Env self tool_manager (p_system params)
                tools max_rounds (Z.to_nat max_rounds) (p_messages params)
                response 0 env) as Hloop.
  cbv zeta in Hloop.
  assert (Hfuel : (Z.to_nat (max_rounds - 0) <= Z.to_nat max_rounds)%nat) by lia.
  specialize (Hloop Hfuel).
  set (loop := rounds_loop (Z.to_nat max_rounds) self (p_system params) tools
                 tool_manager max_rounds (p_messages params) response 0 env)
    in *.
  assert (Hcalls : api_calls (trace run) = api_calls (trace loop)).
  { unfold run, _execute_rounds, bind. fold tools loop.
    destruct (outcome loop); simpl; [now rewrite app_nil_r | reflexivity..]. }
  assert (Hout : outcome run
                 = match outcome loop with
                   | Returned r => content0_text r
                   | Raised e => Raised e
                   | OutOfFuel => OutOfFuel
                   end).
  { unfold run, _execute_rounds, bind. fold tools loop.
    destruct (outcome loop); reflexivity. }
  exists (outcome loop). rewrite Hcalls. split; [exact Hloop|].
  destruct (rounds_last Hloop) as (reply & Hlast & Hlift & _).
  exists reply. repeat split; auto.
  rewrite Hout, Hlift. now destruct reply.
Qed.

(** The shape of every run of [generate_response]. *)
Lemma generate_response_cases (query : string)
    (conversation_history : option string) (tools : option (list ToolDef))
    (tool_manager : option (ToolManager Env)) (max_rounds : option Z)
    (env : Env) :
  let params := first_params (base_params self) (SYSTEM_PROMPT self) query
                  conversation_history tools in
  let run := generate_response self query conversation_history tools
               tool_manager max_rounds env in
  exists calls,
    api_calls (trace run) = (params, fst (client self params env)) :: calls /\
    match fst (client self params env), tool_manager with
    | Exn e, _ => calls = [] /\ outcome run = Raised e
    | Ok response, None => calls = [] /\ outcome run = content0_text response
    | Ok response, Some _ =>
        exists out reply,
          rounds self (p_system params) (round_tools tools)
            (rounds_limit max_rounds) 0 (p_messages params) response calls out /\
          last_of (exchange response calls) = Some reply /\
          outcome run = answer_of reply
    end.
Proof.
  intros params run. unfold run.
  pose proof (generate_response_first_call query conversation_history tools
                tool_manager max_rounds env) as Hfirst.
  cbv zeta in Hfirst. fold params in Hfirst. rewrite Hfirst. clear Hfirst.
  destruct (fst (client self params env)) as [response|e] eqn:Hreply.
  - destruct tool_manager as [tm|].
    + destruct (String.eqb (stop_reason response) "tool_use") eqn:Hstop.
      * destruct (execute_rounds_rounds tm response params
                    (rounds_limit max_rounds) (snd (client self params env)))
          as (out & Hrounds & reply & Hlast & _ & Hout).
        eexists. split; [reflexivity|].
        exists out, reply. repeat split; assumption.
      * exists []. split; [reflexivity|].
        exists (Returned response), (Ok response). repeat split.
        apply rounds_done. now rewrite Hstop.
    + exists []. now repeat split.
  - exists []. destruct tool_manager; now repeat split.
Qed.

(** Every run ends on the reply to its last call. *)
Lemma generate_response_last (query : string)
    (conversation_history : option string) (tools : option (list ToolDef))
    (tool_manager : option (ToolManager Env)) (max_rounds : option Z)
    (env : Env) :
  let run := generate_response self query conversation_history tools
               tool_manager max_rounds env in
  exists params reply,
    last_of (api_calls (trace run)) = Some (params, reply) /\
    outcome run = answer_of reply.
Proof.
  intros run.
  destruct (generate_response_cases query conversation_history tools
              tool_manager max_rounds env) as (calls & Hcalls & Hcase).
  fold run in Hcalls, Hcase. rewrite Hcalls.
  set (params := first_params (base_params self) (SYSTEM_PROMPT self) query
                   conversation_history tools) in *.
  destruct (fst (client self params env)) as [response|e].
  - destruct tool_manager as [tm|].
    + destruct Hcase as (out & reply & _ & Hlast & Hout).
      change (exchange response calls)
        with (map snd ((params, Ok response) :: calls)) in Hlast.
      rewrite last_of_map in Hlast.
      destruct (last_of ((params, Ok response) :: calls)) as [[p r]|];
        simpl in Hlast; [|discriminate].
      inversion Hlast; subst. now exists p, reply.
    + destruct Hcase as [-> Hout]. now exists params, (Ok response).
  - assert (Hc : calls = [] /\ outcome run = Raised e)
      by (destruct tool_manager; exact Hcase).
    destruct Hc as [-> Hout]. now exists params, (Exn e).
Qed.

(** [generate_response] always comes to an end: the fuel of the loop is
    never what stops it. *)
Lemma generate_response_total (query : string)
    (conversation_history : option string) (tools : option (list ToolDef))
    (tool_manager : option (ToolManager Env)) (max_rounds : option Z)
    (env : Env) :
  outcome (generate_response self query conversation_history tools
             tool_manager max_rounds env) <> OutOfFuel.
Proof.
  destruct (generate_response_last query conversation_history tools
              tool_manager max_rounds env) as (params & reply & _ & Hout).
  rewrite Hout. destruct reply as [response|e]; simpl; [|discriminate].
  unfold content0_text.
  destruct (content response) as [|[text|id name input] rest]; discriminate.
Qed.

End GenerateFacts.

(** ** The tests of the repository, replayed on the model *)

Example test_two_sequential_tool_calls_success :
  outcome two_rounds_run = Returned "Combined answer from both tools" /\
  length (api_calls (trace two_rounds_run)) = 3%nat /\
  map (fun call => fst (fst call)) (tool_calls (trace two_rounds_run))
  = ["get_course_outline"; "search_course_content"].
Proof. repeat split. Qed.

Example test_maximum_rounds_enforced :
  outcome maximum_rounds_run = Returned "Maximum tool rounds reached" /\
  length (api_calls (trace maximum_rounds_run)) = 3%nat /\
  length (tool_calls (trace maximum_rounds_run)) = 2%nat.
Proof. repeat split. Qed.

Example test_error_in_first_round_handled_gracefully :
  outcome first_round_error_run
  = Returned "I encountered an error searching for that information" /\
  length (api_calls (trace first_round_error_run)) = 2%nat /\
  tool_calls (trace first_round_error_run)
  = [("search_course_content", [("query", ArgStr "test")],
      Exn (Exception "Database connection failed"))].
Proof. repeat split. Qed.

Example test_conversation_context_preserved_across_rounds :
  map (fun call => length (p_messages (fst call)))
    (api_calls (trace two_rounds_run)) = [1; 3; 5]%nat.
Proof. reflexivity. Qed.

Example test_no_tools_available_fallback :
  outcome direct_run = Returned "Direct answer without tools" /\
  length (api_calls (trace direct_run)) = 1%nat.
Proof. repeat split. Qed.

(** * Properties of the orchestration *)

(** ** Runs that make a single call *)

(** C4.  A query issued with no tool registered ([tools] is [None] or the
    empty list) makes exactly one call to the endpoint, with no tool schema
    and no tool choice, and the answer is read from that reply alone: the
    text of the response is returned as it is.  The model cannot ask for a
    tool it was not offered: either no tool manager is passed, as in
    [test_no_tools_available_fallback], or the endpoint honours the
    absence of tools. *)
Theorem no_tools_single_call (Env : Type) (self : AIGenerator Env)
    (query : string) (conversation_history : option string)
    (tools : option (list ToolDef)) (tool_manager : option (ToolManager Env))
    (max_rounds : option Z) (env : Env) :
  truthy_list tools = false ->
  tool_manager = None \/ honours_tools (client self) ->
  let run := generate_response self query conversation_history tools
               tool_manager max_rounds env in
  exists params reply,
    trace run = [ApiCall params reply] /\
    p_tools params = None /\ p_tool_choice params = None /\
    outcome run = answer_of reply /\
    (forall response text rest,
        reply = Ok response -> content response = TextBlock text :: rest ->
        outcome run = Returned text).
Proof.
  intros Htools Hmodel run.
  pose proof (generate_response_first_call self query conversation_history
                tools tool_manager max_rounds env) as Hfirst.
  cbv zeta in Hfirst. fold run in Hfirst.
  set (params := first_params (base_params self) (SYSTEM_PROMPT self) query
                   conversation_history tools) in *.
  assert (Hnone : p_tools params = None /\ p_tool_choice params = None)
    by (unfold params, first_params; simpl; now rewrite Htools).
  exists params, (fst (client self params env)).
  assert (Hrun : trace run = [ApiCall params (fst (client self params env))]
                 /\ outcome run = answer_of (fst (client self params env))).
  { rewrite Hfirst.
    destruct (fst (client self params env)) as [response|e] eqn:Hreply.
    - destruct tool_manager as [tm|]; [|now split].
      destruct (String.eqb (stop_reason response) "tool_use") eqn:Hstop;
        [|now split].
      exfalso. destruct Hmodel as [Hnotm | Hhonours]; [discriminate|].
      apply (Hhonours params env (proj1 Hnone)).
      exists response. split; [exact Hreply | now apply String.eqb_eq].
    - destruct tool_manager; now split. }
  destruct Hrun as [Htrace Hout], Hnone as [Hnt Hnc].
  repeat split; auto.
  intros response text rest Hreply Hcontent.
  rewrite Hout, Hreply. simpl. unfold content0_text. now rewrite Hcontent.
Qed.

Lemma honest_create_honours_tools : honours_tools honest_create.
Proof.
  intros params env Hnone (response & Hreply & Hstop).
  unfold honest_create in Hreply. rewrite Hnone in Hreply. simpl in Hreply.
  inversion Hreply; subst. discriminate.
Qed.

Lemma no_tools_single_call_witness :
  (truthy_list (@None (list ToolDef)) = false /\
   (@None (ToolManager MockEnv) = None \/ honours_tools (client ai_gen)) /\
   exists params reply,
     trace direct_run = [ApiCall params reply] /\
     p_tools params = None /\ p_tool_choice params = None /\
     outcome direct_run = answer_of reply /\
     (forall response text rest,
         reply = Ok response -> content response = TextBlock text :: rest ->
         outcome direct_run = Returned text)) /\
  (truthy_list (Some (@nil ToolDef)) = false /\
   (Some mock_tool_manager = None \/ honours_tools (client honest_gen)) /\
   exists params reply,
     trace empty_registry_run = [ApiCall params reply] /\
     p_tools params = None /\ p_tool_choice params = None /\
     outcome empty_registry_run = answer_of reply /\
     (forall response text rest,
         reply = Ok response -> content response = TextBlock text :: rest ->
         outcome empty_registry_run = Returned text)).
Proof.
  split.
  - refine (conj eq_refl (conj (or_introl eq_refl) _)).
    exact (@no_tools_single_call MockEnv ai_gen "Search for Python basics"
             None None None (Some 2) direct_env eq_refl (or_introl eq_refl)).
  - refine (conj eq_refl (conj (or_intror honest_create_honours_tools) _)).
    exact (@no_tools_single_call MockEnv honest_gen "Search for Python basics"
             None (Some []) (Some mock_tool_manager) None persistent_env
             eq_refl (or_intror honest_create_honours_tools)).
Defined.

(** C9.  Tools are offered, no tool manager is passed and the model asks
    for a tool: one call is made, offering the tools, nothing is
    dispatched, and the result is [response.content[0].text] of that
    tool-requesting response: the text of its first block when that block
    is a text block, whatever follows it; [AttributeError] when the first
    block is the tool request itself; [IndexError] when the response has
    no block. *)
Theorem tools_without_manager (Env : Type) (self : AIGenerator Env)
    (query : string) (conversation_history : option string)
    (tools : option (list ToolDef)) (max_rounds : option Z) (env : Env)
    (response : Response) :
  let params := first_params (base_params self) (SYSTEM_PROMPT self) query
                  conversation_history tools in
  let run := generate_response self query conversation_history tools None
               max_rounds env in
  truthy_list tools = true ->
  fst (client self params env) = Ok response ->
  stop_reason response = "tool_use" ->
  trace run = [ApiCall params (Ok response)] /\
  p_tools params = tools /\ p_tool_choice params = Some Auto /\
  tool_calls (trace run) = [] /\
  outcome run = content0_text response /\
  (forall text rest,
      content response = TextBlock text :: rest ->
      outcome run = Returned text) /\
  (forall id name input rest,
      content response = ToolUseBlock id name input :: rest ->
      outcome run = Raised AttributeError) /\
  (content response = [] -> outcome run = Raised IndexError).
Proof.
  intros params run Htools Hreply Hstop.
  pose proof (generate_response_first_call self query conversation_history
                tools None max_rounds env) as Hfirst.
  cbv zeta in Hfirst. fold params run in Hfirst.
  rewrite Hreply in Hfirst. rewrite Hfirst. simpl.
  unfold first_params. rewrite Htools. unfold content0_text.
  repeat split; auto.
  - intros text rest Hcontent. now rewrite Hcontent.
  - intros id name input rest Hcontent. now rewrite Hcontent.
  - intros Hcontent. now rewrite Hcontent.
Qed.

Lemma tools_without_manager_witness :
  truthy_list (Some [search_def]) = true /\
  fst (client ai_gen python_params preamble_env) = Ok preamble_response /\
  stop_reason preamble_response = "tool_use" /\
  content preamble_response
  = [TextBlock "I will look that up.";
     ToolUseBlock "t1" "search_course_content" [("query", ArgStr "Python")]] /\
  trace no_manager_run = [ApiCall python_params (Ok preamble_response)] /\
  tool_calls (trace no_manager_run) = [] /\
  outcome no_manager_run = Returned "I will look that up.".
Proof.
  pose proof (@tools_without_manager MockEnv ai_gen "What is Python?" None
                (Some [search_def]) None preamble_env preamble_response
                eq_refl eq_refl eq_refl)
    as (Htrace & _ & _ & Hnone & _ & Htext & _).
  refine (conj eq_refl (conj eq_refl (conj eq_refl (conj eq_refl
            (conj Htrace (conj Hnone _)))))).
  exact (Htext "I will look that up." _ eq_refl).
Defined.

(** C8.  With [max_rounds = 0] and a first response that asks for tools,
    the loop runs no round: the trace holds the first call and nothing
    else (no tool dispatch, no second call, no call without tools), and the
    result is [response.content[0].text] of the tool-requesting response:
    the text of its first block when that block is a text block, whatever
    follows it; [AttributeError] when the first block is the tool request
    itself; [IndexError] when the response has no block. *)
Theorem zero_rounds_no_dispatch (Env : Type) (self : AIGenerator Env)
    (query : string) (conversation_history : option string)
    (tools : option (list ToolDef)) (tool_manager : option (ToolManager Env))
    (env : Env) (response : Response) :
  let params := first_params (base_params self) (SYSTEM_PROMPT self) query
                  conversation_history tools in
  let run := generate_response self query conversation_history tools
               tool_manager (Some 0) env in
  fst (client self params env) = Ok response ->
  stop_reason response = "tool_use" ->
  trace run = [ApiCall params (Ok response)] /\
  tool_calls (trace run) = [] /\
  length (api_calls (trace run)) = 1%nat /\
  outcome run = content0_text response /\
  (forall text rest,
      content response = TextBlock text :: rest ->
      outcome run = Returned text) /\
  (forall id name input rest,
      content response = ToolUseBlock id name input :: rest ->
      outcome run = Raised AttributeError) /\
  (content response = [] -> outcome run = Raised IndexError).
Proof.
  intros params run Hreply Hstop.
  pose proof (generate_response_first_call self query conversation_history
                tools tool_manager (Some 0) env) as Hfirst.
  cbv zeta in Hfirst. fold params run in Hfirst.
  rewrite Hreply in Hfirst.
  assert (Hrun : run = mkRun (content0_text response)
                         (snd (client self params env))
                         [ApiCall params (Ok response)]).
  { rewrite Hfirst. destruct tool_manager as [tm|]; [|reflexivity].
    apply String.eqb_eq in Hstop. rewrite Hstop.
    unfold _execute_rounds, rounds_limit. simpl Z.to_nat. simpl rounds_loop.
    rewrite Hstop. reflexivity. }
  rewrite Hrun. simpl. unfold content0_text.
  repeat split; auto.
  - intros text rest Hcontent. now rewrite Hcontent.
  - intros id name input rest Hcontent. now rewrite Hcontent.
  - intros Hcontent. now rewrite Hcontent.
Qed.

Lemma zero_rounds_no_dispatch_witness :
  fst (client ai_gen python_params preamble_env) = Ok preamble_response /\
  stop_reason preamble_response = "tool_use" /\
  content preamble_response
  = [TextBlock "I will look that up.";
     ToolUseBlock "t1" "search_course_content" [("query", ArgStr "Python")]] /\
  trace zero_rounds_run = [ApiCall python_params (Ok preamble_response)] /\
  tool_calls (trace zero_rounds_run) = [] /\
  length (api_calls (trace zero_rounds_run)) = 1%nat /\
  outcome zero_rounds_run = Returned "I will look that up.".
Proof.
  pose proof (@zero_rounds_no_dispatch MockEnv ai_gen "What is Python?" None
                (Some [search_def]) (Some mock_tool_manager) preamble_env
                preamble_response eq_refl eq_refl)
    as (Htrace & Hnone & Hone & _ & Htext & _).
  refine (conj eq_refl (conj eq_refl (conj eq_refl
            (conj Htrace (conj Hnone (conj Hone _)))))).
  exact (Htext "I will look that up." _ eq_refl).
Defined.

(** ** Counting the calls *)

Lemma requests_not_answers (reply : Reply Response) :
  requests_tools reply -> answers reply -> False.
Proof.
  intros (r & Hr & Hstop) (r' & Hr' & Hstop').
  rewrite Hr in Hr'. inversion Hr'; subst. contradiction.
Qed.

(** C2.  One query, a tool manager, [R] the round limit ([max_rounds], or
    2 when the caller passes none), [R >= 0].  If every reply of the
    endpoint asks for tools, exactly [R + 1] calls are made.  If reply
    number [k + 1] is a response that does not ask for tools, exactly
    [k + 1] calls are made; then [k <= R] and the [k] replies before it all
    asked for tools, the loop having stopped otherwise. *)
Theorem model_call_count (Env : Type) (self : AIGenerator Env)
    (query : string) (conversation_history : option string)
    (tools : option (list ToolDef)) (tool_manager : ToolManager Env)
    (max_rounds : option Z) (env : Env) :
  let R := rounds_limit max_rounds in
  let run := generate_response self query conversation_history tools
               (Some tool_manager) max_rounds env in
  let replies := api_replies (trace run) in
  0 <= R ->
  (max_rounds = None -> R = 2) /\
  (Forall requests_tools replies -> Z.of_nat (length replies) = R + 1) /\
  (forall (k : nat) (reply : Reply Response),
      nth_error replies k = Some reply -> answers reply ->
      length replies = S k /\ Z.of_nat k <= R /\
      forall i reply', (i < k)%nat -> nth_error replies i = Some reply' ->
                       requests_tools reply').
Proof.
  intros R run replies HR.
  split; [now intros -> |].
  destruct (generate_response_cases self query conversation_history tools
              (Some tool_manager) max_rounds env) as (calls & Hcalls & Hcase).
  fold run in Hcalls, Hcase.
  set (params := first_params (base_params self) (SYSTEM_PROMPT self) query
                   conversation_history tools) in *.
  assert (Hreplies : replies = fst (client self params env) :: map snd calls)
    by (unfold replies, api_replies; now rewrite Hcalls).
  destruct (fst (client self params env)) as [response|e].
  - destruct Hcase as (out & last & Hrounds & Hlast & _).
    fold R in Hrounds.
    change (Ok response :: map snd calls) with (exchange response calls)
      in Hreplies.
    pose proof (rounds_length Hrounds) as Hlen.
    pose proof (rounds_requests Hrounds) as Hreq.
    destruct (rounds_last Hrounds) as (last' & Hlast' & _ & Hcap).
    rewrite Hlast in Hlast'. inversion Hlast'; subst last'. clear Hlast'.
    assert (Hlength : length replies = S (length calls))
      by (rewrite Hreplies; unfold exchange; simpl; now rewrite length_map).
    rewrite <- Hreplies in Hreq, Hlast.
    split.
    + intros Hall.
      assert (Hl : requests_tools last).
      { apply last_of_In in Hlast.
        now apply (proj1 (Forall_forall requests_tools replies) Hall). }
      specialize (Hcap Hl). lia.
    + intros k reply Hnth Hans.
      assert (Hk : (k < length replies)%nat)
        by (apply nth_error_Some; congruence).
      assert (Hend : length replies = S k).
      { destruct (Nat.eq_dec (length replies) (S k)) as [|Hne]; [assumption|].
        exfalso. apply (requests_not_answers (reply := reply)); [|assumption].
        apply (Hreq k reply Hnth). lia. }
      repeat split; [assumption | lia |].
      intros i reply' Hi Hnth'. apply (Hreq i reply' Hnth'). lia.
  - destruct Hcase as [-> _]. simpl in Hreplies. split.
    + intros Hall. rewrite Hreplies in Hall. inversion Hall as [|? ? Hreq _].
      destruct Hreq as (r & Hr & _). discriminate.
    + intros k reply Hnth Hans. rewrite Hreplies in Hnth.
      destruct k as [|k]; simpl in Hnth.
      * inversion Hnth; subst. destruct Hans as (r & Hr & _). discriminate.
      * destruct k; discriminate.
Qed.

Lemma persistent_requests :
  Forall requests_tools (api_replies (trace persistent_run)).
Proof.
  repeat constructor; eexists; split; reflexivity.
Defined.

Lemma model_call_count_witness :
  0 <= rounds_limit (Some 2) /\
  Forall requests_tools (api_replies (trace persistent_run)) /\
  Z.of_nat (length (api_replies (trace persistent_run))) = 2 + 1 /\
  nth_error (api_replies (trace one_round_run)) 1
  = Some (Ok (text_response "Python is a language")) /\
  answers (Ok (text_response "Python is a language")) /\
  length (api_replies (trace one_round_run)) = 2%nat.
Proof.
  assert (H0 : 0 <= rounds_limit (Some 2)) by (simpl; lia).
  assert (Hans : answers (Ok (text_response "Python is a language")))
    by (eexists; split; [reflexivity | discriminate]).
  refine (conj H0 (conj persistent_requests (conj _ (conj eq_refl (conj Hans _))))).
  - exact (proj1 (proj2 (@model_call_count MockEnv ai_gen
             "Keep searching for more information" None (Some [search_def])
             mock_tool_manager (Some 2) persistent_env H0))
             persistent_requests).
  - exact (proj1 (proj2 (proj2 (@model_call_count MockEnv ai_gen
             "What is Python?" None (Some [search_def]) mock_tool_manager
             (Some 2) preamble_env H0)) 1%nat
             (Ok (text_response "Python is a language")) eq_refl Hans)).
Defined.

(** ** The call at the round cap *)

Lemma last_of_tail {A : Type} (a : A) (l : list A) :
  l <> [] -> last_of (a :: l) = last_of l.
Proof. destruct l; [contradiction | reflexivity]. Qed.

Lemma persistent_asks_up_to_cap :
  asks_up_to_cap 2 (api_replies (trace persistent_run)).
Proof.
  intros [|[|i]] Hi; [| |lia]; eexists; (split; [reflexivity|]);
    eexists; split; reflexivity.
Defined.

(** C1, as the specification states it, fails: with [R = 2] and a model
    that asks for tools on every call, the third and last call still
    offers the tools. *)
Lemma forced_final_call_counterexample :
  ~ forced_final_call ai_gen "Keep searching for more information" None
      (Some [search_def]) mock_tool_manager (Some 2) persistent_env.
Proof.
  intros Hclaim.
  destruct (Hclaim persistent_asks_up_to_cap)
    as (_ & params & reply & Hlast & Htools & _).
  vm_compute in Hlast. inversion Hlast; subst. discriminate.
Qed.

(** C1, amended.  When the model still asks for tools at the round cap
    [R >= 1], the call number [R + 1] is the follow-up call of round [R]:
    it is made like every follow-up call, with the tools still offered and
    automatic tool choice; it is the last call, and the result is
    [response.content[0].text] of its response, whatever that response
    asks for. *)
Theorem cap_call_keeps_tools (Env : Type) (self : AIGenerator Env)
    (query : string) (conversation_history : option string)
    (tools : option (list ToolDef)) (tool_manager : ToolManager Env)
    (max_rounds : option Z) (env : Env) :
  let R := rounds_limit max_rounds in
  let run := generate_response self query conversation_history tools
               (Some tool_manager) max_rounds env in
  1 <= R ->
  asks_up_to_cap R (api_replies (trace run)) ->
  exists params reply,
    Z.of_nat (length (api_calls (trace run))) = R + 1 /\
    last_of (api_calls (trace run)) = Some (params, reply) /\
    p_tools params = Some (round_tools tools) /\
    p_tool_choice params = Some Auto /\
    outcome run = answer_of reply.
Proof.
  intros R run HR Hasks.
  destruct (generate_response_last self query conversation_history tools
              (Some tool_manager) max_rounds env)
    as (params & reply & Hlastcall & Hout).
  fold run in Hlastcall, Hout.
  destruct (generate_response_cases self query conversation_history tools
              (Some tool_manager) max_rounds env) as (calls & Hcalls & Hcase).
  fold run in Hcalls, Hcase.
  set (params0 := first_params (base_params self) (SYSTEM_PROMPT self) query
                    conversation_history tools) in *.
  assert (Hreplies : api_replies (trace run)
                     = fst (client self params0 env) :: map snd calls)
    by (unfold api_replies; now rewrite Hcalls).
  destruct (Hasks 0%nat) as (reply0 & Hnth0 & Hreq0); [simpl; lia|].
  rewrite Hreplies in Hnth0. simpl in Hnth0. inversion Hnth0; subst reply0.
  destruct Hreq0 as (response & Hreply0 & _).
  rewrite Hreply0 in *.
  destruct Hcase as (out & last & Hrounds & Hlast & _). fold R in Hrounds.
  change (Ok response :: map snd calls) with (exchange response calls)
    in Hreplies.
  pose proof (rounds_length Hrounds) as Hlen.
  pose proof (rounds_offers_tools Hrounds) as Hoffers.
  destruct (rounds_last Hrounds) as (last' & Hlast' & _ & Hcap).
  rewrite Hlast in Hlast'. inversion Hlast'; subst last'. clear Hlast'.
  assert (Hfull : Z.of_nat (length calls) = R).
  { destruct (Z_lt_le_dec (Z.of_nat (length calls)) R) as [Hlt|Hge]; [|lia].
    destruct (Hasks (length calls) Hlt) as (reply' & Hnth & Hreq).
    apply last_of_nth_error in Hlast. rewrite Hreplies in Hnth.
    unfold exchange in Hlast, Hnth. simpl length in Hlast.
    rewrite length_map in Hlast. simpl Nat.pred in Hlast.
    rewrite Hlast in Hnth. inversion Hnth; subst reply'.
    specialize (Hcap Hreq). lia. }
  exists params, reply.
  assert (Hne : calls <> []) by (intros ->; simpl in Hfull; lia).
  rewrite Hcalls in Hlastcall |- *. rewrite (last_of_tail _ Hne) in Hlastcall.
  pose proof (last_of_In _ Hlastcall) as Hin.
  pose proof (proj1 (Forall_forall _ calls) Hoffers _ Hin) as [Ht Hc].
  simpl in Ht, Hc.
  rewrite (last_of_tail _ Hne). repeat split; auto.
  simpl length. lia.
Qed.

Lemma cap_call_keeps_tools_witness :
  1 <= rounds_limit (Some 2) /\
  asks_up_to_cap (rounds_limit (Some 2)) (api_replies (trace persistent_run)) /\
  exists params reply,
    Z.of_nat (length (api_calls (trace persistent_run)))
    = rounds_limit (Some 2) + 1 /\
    last_of (api_calls (trace persistent_run)) = Some (params, reply) /\
    p_tools params = Some (round_tools (Some [search_def])) /\
    p_tool_choice params = Some Auto /\
    outcome persistent_run = answer_of reply.
Proof.
  assert (H1 : 1 <= rounds_limit (Some 2)) by (simpl; lia).
  refine (conj H1 (conj persistent_asks_up_to_cap _)).
  exact (@cap_call_keeps_tools MockEnv ai_gen
           "Keep searching for more information" None (Some [search_def])
           mock_tool_manager (Some 2) persistent_env H1
           persistent_asks_up_to_cap).
Defined.

(** ** The message buffer *)

Lemma consecutive_extension (calls : list (ApiParams * Reply Response)) :
  (forall i params reply params' reply',
      nth_error calls i = Some (params, reply) ->
      nth_error calls (S i) = Some (params', reply') ->
      appended_by_round params reply params') ->
  forall d i params reply params' reply',
    nth_error calls i = Some (params, reply) ->
    nth_error calls (i + d) = Some (params', reply') ->
    exists extension, p_messages params' = p_messages params ++ extension.
Proof.
  intros Hstep d.
  induction d as [|d IH]; intros i params reply params' reply' Hi Hj.
  - rewrite Nat.add_0_r, Hi in Hj. inversion Hj; subst.
    exists []. now rewrite app_nil_r.
  - replace (i + S d)%nat with (S (i + d)) in Hj by lia.
    destruct (nth_error calls (i + d)) as [[params1 reply1]|] eqn:Hmid.
    + destruct (IH i params reply params1 reply1 Hi Hmid) as (ext & Hext).
      destruct (Hstep _ _ _ _ _ Hmid Hj) as (r & res & _ & _ & Happ).
      rewrite Happ, Hext, <- app_assoc. eexists. reflexivity.
    + exfalso. apply nth_error_None in Hmid.
      assert (Hsome : nth_error calls (S (i + d)) <> None) by congruence.
      apply nth_error_Some in Hsome. lia.
Qed.

(** C5.  Within one query the buffer only grows.  The first call carries
    the user's query alone; each later call carries the buffer of the call
    before it followed by the assistant message holding that call's
    response and then one user message with the tool results, one per
    request of the response (the user message is left out only for a
    response without any request).  Hence the messages of any call are the
    messages of every earlier call, unchanged, with an extension. *)
Theorem buffer_append_only (Env : Type) (self : AIGenerator Env)
    (query : string) (conversation_history : option string)
    (tools : option (list ToolDef)) (tool_manager : option (ToolManager Env))
    (max_rounds : option Z) (env : Env) :
  let run := generate_response self query conversation_history tools
               tool_manager max_rounds env in
  let calls := api_calls (trace run) in
  (exists params reply rest,
      calls = (params, reply) :: rest /\
      p_messages params = [mkMessage "user" (QueryText query)]) /\
  (forall i params reply params' reply',
      nth_error calls i = Some (params, reply) ->
      nth_error calls (S i) = Some (params', reply') ->
      appended_by_round params reply params') /\
  (forall i j params reply params' reply',
      (i <= j)%nat ->
      nth_error calls i = Some (params, reply) ->
      nth_error calls j = Some (params', reply') ->
      exists extension, p_messages params' = p_messages params ++ extension).
Proof.
  intros run calls.
  destruct (generate_response_cases self query conversation_history tools
              tool_manager max_rounds env) as (rest & Hcalls & Hcase).
  fold run in Hcalls, Hcase. fold calls in Hcalls.
  set (params0 := first_params (base_params self) (SYSTEM_PROMPT self) query
                    conversation_history tools) in *.
  assert (Hstep : forall i params reply params' reply',
             nth_error calls i = Some (params, reply) ->
             nth_error calls (S i) = Some (params', reply') ->
             appended_by_round params reply params').
  { rewrite Hcalls.
    destruct (fst (client self params0 env)) as [response|e].
    - destruct tool_manager as [tm|].
      + destruct Hcase as (out & last & Hrounds & _).
        exact (rounds_append_only Hrounds params0 eq_refl).
      + destruct Hcase as [-> _]. intros [|i] ? ? ? ? _ H; discriminate.
    - assert (Hrest : rest = []) by (destruct tool_manager; apply Hcase).
      rewrite Hrest. intros [|i] ? ? ? ? _ H; discriminate. }
  split; [|split].
  - exists params0, (fst (client self params0 env)), rest. now split.
  - exact Hstep.
  - intros i j params reply params' reply' Hij Hi Hj.
    replace j with (i + (j - i))%nat in Hj by lia.
    exact (consecutive_extension calls Hstep (j - i) i Hi Hj).
Qed.

Lemma buffer_append_only_witness :
  exists params reply params' reply',
    nth_error (api_calls (trace two_rounds_run)) 1 = Some (params, reply) /\
    nth_error (api_calls (trace two_rounds_run)) 2 = Some (params', reply') /\
    length (p_messages params) = 3%nat /\
    length (p_messages params') = 5%nat /\
    appended_by_round params reply params'.
Proof.
  do 4 eexists.
  split; [reflexivity|]. split; [reflexivity|].
  split; [reflexivity|]. split; [reflexivity|].
  eapply (proj1 (proj2 (@buffer_append_only MockEnv ai_gen
            "Tell me about MCP course structure and basic concepts" None
            (Some [outline_def; search_def]) (Some mock_tool_manager) (Some 2)
            two_rounds_env)) 1%nat); reflexivity.
Defined.

(** ** The answer *)

Lemma content0_text_head (response response' : Response) :
  hd_error (content response') = hd_error (content response) ->
  content0_text response' = content0_text response.
Proof.
  unfold content0_text.
  destruct (content response) as [|b bs], (content response') as [|b' bs'];
    simpl; intros H; try discriminate; [reflexivity|].
  now inversion H.
Qed.

(** C10.  The result of [generate_response] is read from the reply to the
    last call, as [response.content[0].text].  So an answer, when there is
    one, is the text of the first content block of the last response, and
    that block is a text block; the blocks after the first play no part
    (any response with the same first block gives the same result); and
    when the last response starts with a tool-invocation request, as a run
    that stops at the round cap may, there is no answer: the attribute
    access fails. *)
Theorem answer_is_first_block_text (Env : Type) (self : AIGenerator Env)
    (query : string) (conversation_history : option string)
    (tools : option (list ToolDef)) (tool_manager : option (ToolManager Env))
    (max_rounds : option Z) (env : Env) :
  let run := generate_response self query conversation_history tools
               tool_manager max_rounds env in
  (exists params reply,
      last_of (api_calls (trace run)) = Some (params, reply) /\
      outcome run = answer_of reply) /\
  (forall answer,
      outcome run = Returned answer ->
      exists params response,
        last_of (api_calls (trace run)) = Some (params, Ok response) /\
        hd_error (content response) = Some (TextBlock answer)) /\
  (forall params response response',
      last_of (api_calls (trace run)) = Some (params, Ok response) ->
      hd_error (content response') = hd_error (content response) ->
      outcome run = content0_text response') /\
  (forall params response id name input,
      last_of (api_calls (trace run)) = Some (params, Ok response) ->
      hd_error (content response) = Some (ToolUseBlock id name input) ->
      outcome run = Raised AttributeError).
Proof.
  intros run.
  destruct (generate_response_last self query conversation_history tools
              tool_manager max_rounds env) as (params & reply & Hlast & Hout).
  fold run in Hlast, Hout.
  split; [now exists params, reply|].
  split; [|split].
  - intros answer Hans. rewrite Hout in Hans.
    destruct reply as [response|e]; simpl in Hans; [|discriminate].
    exists params, response. split; [assumption|].
    unfold content0_text in Hans.
    destruct (content response) as [|[text|id name input] rest];
      try discriminate.
    now inversion Hans.
  - intros params1 response response' Hlast1 Hhead.
    rewrite Hlast in Hlast1. inversion Hlast1; subst.
    rewrite Hout. simpl. symmetry. now apply content0_text_head.
  - intros params1 response id name input Hlast1 Hhead.
    rewrite Hlast in Hlast1. inversion Hlast1; subst.
    rewrite Hout. simpl. unfold content0_text.
    destruct (content response) as [|b rest]; [discriminate|].
    simpl in Hhead. now inversion Hhead.
Qed.

Lemma answer_is_first_block_text_witness :
  (outcome persistent_run = Returned "Let me search again." /\
   exists params response,
     last_of (api_calls (trace persistent_run)) = Some (params, Ok response) /\
     hd_error (content response) = Some (TextBlock "Let me search again.")) /\
  (exists params,
     last_of (api_calls (trace cap_run))
     = Some (params, Ok (tool_use_response "t2" "search_course_content"
                           [("query", ArgStr "more")]))) /\
  outcome cap_run = Raised AttributeError.
Proof.
  split; [split; [reflexivity|] | split; [eexists; reflexivity|]].
  - exact (proj1 (proj2 (@answer_is_first_block_text MockEnv ai_gen
             "Keep searching for more information" None (Some [search_def])
             (Some mock_tool_manager) (Some 2) persistent_env))
             "Let me search again." eq_refl).
  - eapply (proj2 (proj2 (proj2 (@answer_is_first_block_text MockEnv ai_gen
             "Search for information" None (Some [search_def])
             (Some mock_tool_manager) (Some 1) cap_env))));
      reflexivity.
Defined.

(** ** One round of tool dispatch *)

(** C3.  In a round, every tool-invocation request of the response is
    dispatched, in the order of the blocks, whatever the other dispatches
    do; a dispatch that raises [e] is not propagated, its result is the
    text ["Tool execution error: " ++ str(e)]; the buffer sent with the
    follow-up call ends with the assistant message and one user message
    that holds exactly one result per request, in order, each under the
    call id of its request; and the round itself raises only if the
    endpoint does. *)
Theorem tool_failure_contained (Env : Type) (self : AIGenerator Env)
    (tool_manager : ToolManager Env) (messages : list Message)
    (system_content : string) (tools : list ToolDef) (response : Response)
    (env : Env) :
  let run := _execute_single_round self messages system_content tools
               tool_manager response env in
  let uses := tool_uses (content response) in
  let replies := fst (run_tools tool_manager uses env) in
  let results := zip_with tool_result_of uses replies in
  length replies = length uses /\
  tool_calls (trace run)
  = zip_with (fun use reply => (use_name use, use_input use, reply))
      uses replies /\
  map tool_use_id results = map use_id uses /\
  (forall i use e,
      nth_error uses i = Some use -> nth_error replies i = Some (Exn e) ->
      nth_error results i
      = Some (mkToolResult (use_id use)
                ("Tool execution error: " ++ exc_str e)%string)) /\
  (forall i use text,
      nth_error uses i = Some use -> nth_error replies i = Some (Ok text) ->
      nth_error results i = Some (mkToolResult (use_id use) text)) /\
  exists params reply,
    last_of (trace run) = Some (ApiCall params reply) /\
    api_calls (trace run) = [(params, reply)] /\
    p_messages params
    = messages ++ mkMessage "assistant" (Blocks (content response))
        :: (if nonempty uses then [mkMessage "user" (Results results)] else []) /\
    outcome run = match reply with
                  | Ok next_response => Returned (p_messages params, next_response)
                  | Exn e => Raised e
                  end.
Proof.
  intros run uses replies results.
  pose proof (execute_single_round_run self tool_manager messages
                system_content tools response env) as Hrun.
  cbv zeta in Hrun. fold run uses replies in Hrun.
  assert (Hlen : length replies = length uses) by apply run_tools_length.
  split; [exact Hlen|]. split; [|split; [|split; [|split]]].
  - rewrite Hrun. simpl. rewrite tool_calls_app. simpl. rewrite app_nil_r.
    clear Hrun Hlen. generalize replies.
    induction uses as [|use rest IH]; intros [|reply others]; simpl; auto.
    now rewrite IH.
  - now apply tool_result_ids.
  - intros i use e Hi Hr.
    exact (zip_with_nth_error tool_result_of uses replies i Hi Hr).
  - intros i use text Hi Hr.
    exact (zip_with_nth_error tool_result_of uses replies i Hi Hr).
  - eexists. eexists. rewrite Hrun. simpl.
    split; [apply last_of_app|].
    split; [now rewrite api_calls_app, api_calls_tool_events|].
    split; [|reflexivity].
    unfold round_messages, round_results. fold uses replies results.
    replace (nonempty results) with (nonempty uses); [reflexivity|].
    unfold results. clear Hrun. revert Hlen. generalize replies.
    destruct uses; intros [|reply others]; simpl; intros H;
      try discriminate; reflexivity.
Qed.

Lemma tool_failure_contained_witness :
  nth_error (tool_uses (content two_requests)) 0
  = Some (mkToolUse "t1" "search_course_content" [("query", ArgStr "advanced")]) /\
  nth_error (fst (run_tools mock_tool_manager
                    (tool_uses (content two_requests)) failing_tool_env)) 0
  = Some (Exn (Exception "Search service unavailable")) /\
  nth_error (zip_with tool_result_of (tool_uses (content two_requests))
               (fst (run_tools mock_tool_manager
                       (tool_uses (content two_requests)) failing_tool_env))) 0
  = Some (mkToolResult "t1" "Tool execution error: Search service unavailable") /\
  length (tool_calls (trace failing_tool_run)) = 2%nat.
Proof.
  refine (conj eq_refl (conj eq_refl (conj _ eq_refl))).
  exact (proj1 (proj2 (proj2 (proj2 (@tool_failure_contained MockEnv ai_gen
           mock_tool_manager [mkMessage "user" (QueryText "MCP?")] "system"
           [search_def; outline_def] two_requests failing_tool_env))))
           0%nat
           (mkToolUse "t1" "search_course_content" [("query", ArgStr "advanced")])
           (Exception "Search service unavailable") eq_refl eq_refl).
Defined.

(** ** The content-search tool *)

Module CourseSearchToolFacts.

Import CourseSearchTool.

(** C6.  On a successful search (no error, at least one passage) the text
    of the tool is made of the passages, in order, each formatted
    ["[<course> - Lesson <n>] <passage text>"], and the tool records one
    citation per passage, in order and without merging repeated
    course/lesson pairs: the citation of a passage has the label
    ["<course> - Lesson <n>"] and the lesson link of that course and
    lesson.  Two passages give exactly two citations. *)
Theorem search_formats_and_cites (tool : Tool) (query : string)
    (course_name : option string) (lesson : option Z)
    (last_sources : list Citation) :
  let results := search (store tool) query course_name lesson in
  let found := passages results in
  let cited := map (citation_of (store tool)) found in
  truthy_str (error results) = false ->
  found <> [] ->
  execute tool query course_name lesson last_sources
  = (Ok (String.concat (separator tool) (map format_passage found)),
     last_sources ++ cited) /\
  length cited = length found /\
  (forall i p,
      nth_error found i = Some p ->
      nth_error (map format_passage found) i
      = Some ("[" ++ (course_title p ++ " - Lesson "
                      ++ string_of_Z (lesson_number p))
              ++ "] " ++ passage_text p)%string /\
      nth_error cited i
      = Some (mkCitation
                (course_title p ++ " - Lesson " ++ string_of_Z (lesson_number p))
                (get_lesson_link (store tool) (course_title p) (lesson_number p)))) /\
  (forall p1 p2, found = [p1; p2] -> length cited = 2%nat).
Proof.
  intros results found cited Herr Hfound.
  split; [|split; [|split]].
  - unfold execute. fold results. rewrite Herr. fold found.
    destruct found; [contradiction | reflexivity].
  - apply length_map.
  - intros i p Hi. split.
    + now rewrite nth_error_map, Hi.
    + unfold cited. now rewrite nth_error_map, Hi.
  - intros p1 p2 Hfound2. unfold cited. now rewrite Hfound2.
Qed.

Lemma search_formats_and_cites_witness :
  truthy_str (error (search two_passages_store "test query" None None)) = false /\
  passages (search two_passages_store "test query" None None) <> [] /\
  execute two_passages_tool "test query" None None []
  = (Ok ("[Course A - Lesson 1] Content 1" ++ double_newline
         ++ "[Course B - Lesson 2] Content 2")%string,
     [mkCitation "Course A - Lesson 1" (Some "https://example.com/lesson1");
      mkCitation "Course B - Lesson 2" (Some "https://example.com/lesson2")]).
Proof.
  assert (Hfound : passages (search two_passages_store "test query" None None)
                   <> []) by discriminate.
  refine (conj eq_refl (conj Hfound _)).
  exact (proj1 (search_formats_and_cites two_passages_tool "test query" None
                  None [] eq_refl Hfound)).
Defined.

(** C7, as stated, fails: the store of [test_execute_with_search_error]
    reports the failure ["Database connection failed"], and the text of
    the tool is that message, without any ["Search error: "] before it. *)
Lemma formats_search_error_counterexample :
  ~ formats_search_error (mkTool failing_store double_newline).
Proof.
  intros Hclaim.
  destruct (Hclaim "test query" None None []) as (_ & _ & Hformat).
  specialize (Hformat "Database connection failed" eq_refl).
  assert (Hne : "Database connection failed" <> "") by discriminate.
  specialize (Hformat Hne). discriminate.
Qed.

(** C7, amended.  [execute] never raises on a failed or an empty
    retrieval; its reply is always a text, and the citations are left as
    they were.  Without error and without passage the text is the
    sentinel ["No relevant content found"].  When the retrieval layer
    reports a failure, the text is the message of the failure exactly as
    the retrieval layer reported it: the tool adds nothing to it, so it
    reads ["Search error: ..."] only if the reported message does. *)
Theorem search_failure_is_text (tool : Tool) (query : string)
    (course_name : option string) (lesson : option Z)
    (last_sources : list Citation) :
  let results := search (store tool) query course_name lesson in
  (exists text,
      fst (execute tool query course_name lesson last_sources) = Ok text) /\
  (truthy_str (error results) = false -> passages results = [] ->
   execute tool query course_name lesson last_sources
   = (Ok "No relevant content found", last_sources)) /\
  (forall message,
      error results = Some message -> message <> "" ->
      execute tool query course_name lesson last_sources
      = (Ok message, last_sources)).
Proof.
  intros results.
  split; [|split].
  - unfold execute. fold results.
    destruct (truthy_str (error results)); [eexists; reflexivity|].
    destruct (nonempty (passages results)); eexists; reflexivity.
  - intros Herr Hempty. unfold execute. fold results.
    now rewrite Herr, Hempty.
  - intros message Herr Hne. unfold execute, error_message. fold results.
    rewrite Herr. destruct message; [contradiction | reflexivity].
Qed.

Lemma search_failure_is_text_witness :
  truthy_str (error (search empty_store "test query" None None)) = false /\
  passages (search empty_store "test query" None None) = [] /\
  execute (mkTool empty_store double_newline) "test query" None None []
  = (Ok "No relevant content found", []) /\
  error (search failing_store "test query" None None)
  = Some "Database connection failed" /\
  "Database connection failed" <> "" /\
  execute (mkTool failing_store double_newline) "test query" None None []
  = (Ok "Database connection failed", []).
Proof.
  assert (Hne : "Database connection failed" <> "") by discriminate.
  refine (conj eq_refl (conj eq_refl (conj _ (conj eq_refl (conj Hne _))))).
  - exact (proj1 (proj2 (search_failure_is_text
             (mkTool empty_store double_newline) "test query" None None []))
             eq_refl eq_refl).
  - exact (proj2 (proj2 (search_failure_is_text
             (mkTool failing_store double_newline) "test query" None None []))
             "Database connection failed" eq_refl Hne).
Defined.

End CourseSearchToolFacts.

(** * Further properties of [AIGenerator] *)

(** ** The whole trace of a run *)

Lemma last_of_app_nonempty {A : Type} (l l' : list A) :
  l' <> [] -> last_of (l ++ l') = last_of l'.
Proof.
  intros Hne. induction l as [|a l IH]; simpl; [reflexivity|].
  destruct (l ++ l') eqn:E; [|exact IH].
  apply app_eq_nil in E. now destruct E.
Qed.

Lemma last_of_api_call (events : list Event) (params : ApiParams)
    (reply : Reply Response) :
  last_of events = Some (ApiCall params reply) ->
  last_of (api_calls events) = Some (params, reply).
Proof.
  induction events as [|ev [|ev' events] IH]; intros H; try discriminate.
  - simpl in H. inversion H; subst. reflexivity.
  - change (last_of (ev' :: events) = Some (ApiCall params reply)) in H.
    specialize (IH H).
    destruct ev as [p r|name input r].
    + change (api_calls (ApiCall p r :: ev' :: events))
        with ((p, r) :: api_calls (ev' :: events)).
      rewrite last_of_tail; [exact IH|].
      intros E. rewrite E in IH. discriminate.
    + exact IH.
Qed.

Lemma tool_calls_tool_events (uses : list ToolUse) (replies : list (Reply string)) :
  length replies = length uses ->
  map fst (tool_calls (zip_with tool_event uses replies))
  = map (fun use => (use_name use, use_input use)) uses.
Proof.
  revert replies; induction uses as [|use uses IH]; intros [|reply replies] H;
    simpl in *; try discriminate; auto.
  f_equal. apply IH. now inversion H.
Qed.

Section TraceFacts.

Variable Env : Type.
Variable self : AIGenerator Env.
Variable tool_manager : ToolManager Env.
Variable system_content : string.
Variable tools : list ToolDef.

(** The loop leaves no event after its last call to the endpoint. *)
Lemma rounds_loop_trace_last (max_rounds : Z) (fuel : nat) :
  forall messages response rounds_completed env,
    let run := rounds_loop fuel self system_content tools tool_manager
                 max_rounds messages response rounds_completed env in
    trace run = [] \/
    exists params reply, last_of (trace run) = Some (ApiCall params reply).
Proof.
  induction fuel as [|fuel IH]; intros messages response c env; simpl;
    destruct (String.eqb (stop_reason response) "tool_use" && (c <? max_rounds));
    try (now left).
  pose proof (execute_single_round_run self tool_manager messages
                system_content tools response env) as Hrun.
  cbv zeta in Hrun. unfold bind. rewrite Hrun. clear Hrun. simpl.
  set (env' := snd (run_tools tool_manager (tool_uses (content response)) env)).
  set (params := round_params self system_content tools
                   (round_messages messages response
                      (round_results tool_manager response env))).
  destruct (fst (client self params env')) as [next_response|e]; simpl.
  - right.
    destruct (IH (round_messages messages response
                    (round_results tool_manager response env))
                 next_response (c + 1) (snd (client self params env')))
      as [Hnil | (p & r & Hlast)].
    + rewrite Hnil, app_nil_r. eexists. eexists. apply last_of_app.
    + exists p, r. rewrite last_of_app_nonempty; [exact Hlast|].
      intros E. rewrite E in Hlast. discriminate.
  - right. eexists. eexists. apply last_of_app.
Qed.

(** The dispatches of the loop are the requests of every reply that a
    round followed, in order. *)
Lemma rounds_loop_dispatches (max_rounds : Z) (fuel : nat) :
  forall messages response rounds_completed env,
    let run := rounds_loop fuel self system_content tools tool_manager
                 max_rounds messages response rounds_completed env in
    map fst (tool_calls (trace run))
    = flat_map requests_of
        (removelast (exchange response (api_calls (trace run)))).
Proof.
  induction fuel as [|fuel IH]; intros messages response c env; simpl;
    destruct (String.eqb (stop_reason response) "tool_use" && (c <? max_rounds));
    try reflexivity.
  pose proof (execute_single_round_run self tool_manager messages
                system_content tools response env) as Hrun.
  cbv zeta in Hrun. unfold bind. rewrite Hrun. clear Hrun.
  cbn [outcome env_after trace].
  set (env' := snd (run_tools tool_manager (tool_uses (content response)) env)).
  set (params := round_params self system_content tools
                   (round_messages messages response
                      (round_results tool_manager response env))).
  assert (Htools : map fst (tool_calls
                     (zip_with tool_event (tool_uses (content response))
                        (fst (run_tools tool_manager
                                (tool_uses (content response)) env))))
                   = requests_of (Ok response))
    by (apply tool_calls_tool_events, run_tools_length).
  destruct (fst (client self params env')) as [next_response|e];
    cbn [outcome env_after trace].
  - specialize (IH (round_messages messages response
                      (round_results tool_manager response env))
                   next_response (c + 1) (snd (client self params env'))).
    cbv zeta in IH. unfold exchange in *.
    rewrite !tool_calls_app, !api_calls_app, api_calls_tool_events.
    rewrite !map_app, Htools.
    cbn [tool_calls api_calls app map fst snd].
    cbn [flat_map]. now rewrite app_nil_r, IH.
  - unfold exchange.
    rewrite tool_calls_app, api_calls_app, api_calls_tool_events.
    rewrite map_app, Htools.
    cbn [tool_calls api_calls app map fst snd].
    cbn [flat_map removelast]. now rewrite !app_nil_r.
Qed.

(** A loop that ends on a reply that does not ask for tools runs the same
    under any larger round limit. *)
Lemma rounds_loop_cap (max_rounds max_rounds' : Z) (fuel : nat) :
  forall fuel' messages response rounds_completed env,
    max_rounds <= max_rounds' ->
    (Z.to_nat (max_rounds - rounds_completed) <= fuel)%nat ->
    (Z.to_nat (max_rounds' - rounds_completed) <= fuel')%nat ->
    let run := rounds_loop fuel self system_content tools tool_manager
                 max_rounds messages response rounds_completed env in
    match outcome run with
    | Returned last => stop_reason last <> "tool_use"
    | Raised _ => True
    | OutOfFuel => False
    end ->
    rounds_loop fuel' self system_content tools tool_manager max_rounds'
      messages response rounds_completed env = run.
Proof.
  induction fuel as [|fuel IH];
    intros fuel' messages response c env Hle Hfuel Hfuel' run Hend;
    subst run.
  - simpl in *.
    destruct (String.eqb (stop_reason response) "tool_use") eqn:Hstop.
    + destruct (c <? max_rounds) eqn:Hlt; simpl in *; [contradiction|].
      apply String.eqb_eq in Hstop. contradiction.
    + destruct fuel'; simpl; now rewrite Hstop.
  - simpl in *.
    destruct (String.eqb (stop_reason response) "tool_use") eqn:Hstop.
    + destruct (c <? max_rounds) eqn:Hlt; simpl in *.
      * apply Z.ltb_lt in Hlt.
        destruct fuel' as [|fuel']; [lia|]. simpl. rewrite Hstop.
        assert (Hlt' : (c <? max_rounds') = true) by (apply Z.ltb_lt; lia).
        rewrite Hlt'. simpl. unfold bind in *.
        destruct (outcome (_execute_single_round self messages system_content
                             tools tool_manager response env))
          as [[messages' next_response]|e|]; try reflexivity.
        rewrite (IH fuel' messages' next_response (c + 1)); auto; lia.
      * apply String.eqb_eq in Hstop. contradiction.
    + destruct fuel'; simpl; now rewrite Hstop.
Qed.

End TraceFacts.

Section RunFacts.

Variable Env : Type.
Variable self : AIGenerator Env.

(** The events of a run: the first call, then the events of the loop. *)
Lemma generate_response_trace (query : string)
    (conversation_history : option string) (tools : option (list ToolDef))
    (tool_manager : option (ToolManager Env)) (max_rounds : option Z)
    (env : Env) :
  let params := first_params (base_params self) (SYSTEM_PROMPT self) query
                  conversation_history tools in
  let reply := fst (client self params env) in
  trace (generate_response self query conversation_history tools tool_manager
           max_rounds env)
  = ApiCall params reply ::
    match reply, tool_manager with
    | Ok response, Some tm =>
        trace (rounds_loop (Z.to_nat (rounds_limit max_rounds)) self
                 (p_system params) (round_tools tools) tm
                 (rounds_limit max_rounds) (p_messages params) response 0
                 (snd (client self params env)))
    | _, _ => []
    end.
Proof.
  intros params reply.
  pose proof (generate_response_first_call self query conversation_history
                tools tool_manager max_rounds env) as Hfirst.
  cbv zeta in Hfirst. fold params reply in Hfirst. rewrite Hfirst.
  destruct reply as [response|e]; [|reflexivity].
  destruct tool_manager as [tm|]; [|reflexivity].
  destruct (String.eqb (stop_reason response) "tool_use") eqn:Hstop.
  - cbn [trace]. f_equal. unfold _execute_rounds, bind.
    change (match p_tools params with Some t => t | None => [] end)
      with (round_tools tools).
    destruct (outcome (rounds_loop (Z.to_nat (rounds_limit max_rounds)) self
                         (p_system params) (round_tools tools) tm
                         (rounds_limit max_rounds) (p_messages params)
                         response 0 (snd (client self params env))));
      cbn [trace return_text]; [apply app_nil_r | reflexivity..].
  - cbn [trace]. f_equal.
    destruct (Z.to_nat (rounds_limit max_rounds)); simpl; now rewrite Hstop.
Qed.

(** In a run every reply but the last one asks for tools. *)
Lemma generate_response_requests (query : string)
    (conversation_history : option string) (tools : option (list ToolDef))
    (tool_manager : option (ToolManager Env)) (max_rounds : option Z)
    (env : Env) :
  let run := generate_response self query conversation_history tools
               tool_manager max_rounds env in
  forall i reply,
    nth_error (api_replies (trace run)) i = Some reply ->
    (S i < length (api_replies (trace run)))%nat ->
    requests_tools reply.
Proof.
  intros run i reply.
  destruct (generate_response_cases self query conversation_history tools
              tool_manager max_rounds env) as (calls & Hcalls & Hcase).
  fold run in Hcalls, Hcase. unfold api_replies. rewrite Hcalls.
  set (params := first_params (base_params self) (SYSTEM_PROMPT self) query
                   conversation_history tools) in *.
  destruct (fst (client self params env)) as [response|e].
  - destruct tool_manager as [tm|].
    + destruct Hcase as (out & last & Hrounds & _).
      exact (@rounds_requests _ _ _ _ _ _ _ _ _ _ Hrounds i reply).
    + destruct Hcase as [-> _]. simpl. lia.
  - assert (Hnil : calls = []) by (destruct tool_manager; apply Hcase).
    rewrite Hnil. simpl. lia.
Qed.

(** In a run each call carries the buffer of the call before it, grown by
    one round. *)
Lemma generate_response_step (query : string)
    (conversation_history : option string) (tools : option (list ToolDef))
    (tool_manager : option (ToolManager Env)) (max_rounds : option Z)
    (env : Env) :
  let run := generate_response self query conversation_history tools
               tool_manager max_rounds env in
  forall i params reply params' reply',
    nth_error (api_calls (trace run)) i = Some (params, reply) ->
    nth_error (api_calls (trace run)) (S i) = Some (params', reply') ->
    appended_by_round params reply params'.
Proof.
  intros run.
  destruct (generate_response_cases self query conversation_history tools
              tool_manager max_rounds env) as (rest & Hcalls & Hcase).
  fold run in Hcalls, Hcase. rewrite Hcalls.
  set (params0 := first_params (base_params self) (SYSTEM_PROMPT self) query
                    conversation_history tools) in *.
  destruct (fst (client self params0 env)) as [response|e].
  - destruct tool_manager as [tm|].
    + destruct Hcase as (out & last & Hrounds & _).
      exact (rounds_append_only Hrounds params0 eq_refl).
    + destruct Hcase as [-> _]. intros [|i] ? ? ? ? _ H; discriminate.
  - assert (Hrest : rest = []) by (destruct tool_manager; apply Hcase).
    rewrite Hrest. intros [|i] ? ? ? ? _ H; discriminate.
Qed.

(** A run ends with a call to the endpoint. *)
Lemma generate_response_trace_last (query : string)
    (conversation_history : option string) (tools : option (list ToolDef))
    (tool_manager : option (ToolManager Env)) (max_rounds : option Z)
    (env : Env) :
  exists params reply,
    last_of (trace (generate_response self query conversation_history tools
                      tool_manager max_rounds env))
    = Some (ApiCall params reply).
Proof.
  rewrite generate_response_trace.
  set (params := first_params (base_params self) (SYSTEM_PROMPT self) query
                   conversation_history tools).
  destruct (fst (client self params env)) as [response|e];
    [|now eexists; eexists].
  destruct tool_manager as [tm|]; [|now eexists; eexists].
  destruct (rounds_loop_trace_last self tm (p_system params)
              (round_tools tools) (rounds_limit max_rounds)
              (Z.to_nat (rounds_limit max_rounds)) (p_messages params)
              response 0 (snd (client self params env)))
    as [Hnil | (p & r & Hlast)].
  - rewrite Hnil. now eexists; eexists.
  - exists p, r. rewrite last_of_tail; [exact Hlast|].
    intros E. rewrite E in Hlast. discriminate.
Qed.

End RunFacts.

(** ** Endpoint failures *)

(** X1.  A call to the endpoint that raises ends the run: the exception is
    the outcome of [generate_response], unchanged; the failing call is the
    last call and the last event of the run, nothing being dispatched or
    sent after it. *)
Theorem endpoint_failure_propagates (Env : Type) (self : AIGenerator Env)
    (query : string) (conversation_history : option string)
    (tools : option (list ToolDef)) (tool_manager : option (ToolManager Env))
    (max_rounds : option Z) (env : Env) :
  let run := generate_response self query conversation_history tools
               tool_manager max_rounds env in
  forall i params e,
    nth_error (api_calls (trace run)) i = Some (params, Exn e) ->
    outcome run = Raised e /\
    length (api_calls (trace run)) = S i /\
    last_of (trace run) = Some (ApiCall params (Exn e)).
Proof.
  intros run i params e Hnth.
  assert (Hreply : nth_error (api_replies (trace run)) i = Some (Exn e))
    by (unfold api_replies; now rewrite nth_error_map, Hnth).
  assert (Hlen : length (api_calls (trace run)) = S i).
  { assert (Hi : (i < length (api_calls (trace run)))%nat)
      by (apply nth_error_Some; congruence).
    destruct (Nat.eq_dec (length (api_calls (trace run))) (S i)) as [|Hne];
      [assumption|].
    exfalso.
    destruct (@generate_response_requests Env self query conversation_history
                tools tool_manager max_rounds env i (Exn e) Hreply)
      as (response & Habs & _); [|discriminate].
    fold run. unfold api_replies. rewrite length_map. lia. }
  destruct (generate_response_last self query conversation_history tools
              tool_manager max_rounds env) as (pl & rl & Hlast & Hout).
  fold run in Hlast, Hout.
  pose proof (last_of_nth_error _ Hlast) as Hlast'.
  rewrite Hlen in Hlast'. simpl in Hlast'. rewrite Hnth in Hlast'.
  inversion Hlast'; subst pl rl.
  destruct (generate_response_trace_last self query conversation_history
              tools tool_manager max_rounds env) as (p & r & Htrace).
  fold run in Htrace.
  pose proof (last_of_api_call _ Htrace) as Hcall.
  rewrite Hlast in Hcall. inversion Hcall; subst p r.
  now repeat split.
Qed.

Lemma endpoint_failure_propagates_witness :
  exists params,
    nth_error (api_calls (trace endpoint_error_run)) 1
    = Some (params, Exn (Exception "Rate limit exceeded")) /\
    outcome endpoint_error_run = Raised (Exception "Rate limit exceeded") /\
    length (api_calls (trace endpoint_error_run)) = 2%nat /\
    last_of (trace endpoint_error_run)
    = Some (ApiCall params (Exn (Exception "Rate limit exceeded"))).
Proof.
  eexists. split; [reflexivity|].
  apply (@endpoint_failure_propagates MockEnv ai_gen "Search for something"
           None (Some [search_def]) (Some mock_tool_manager) (Some 2)
           endpoint_error_env 1%nat).
  reflexivity.
Defined.

(** ** What every call carries *)

Lemma rounds_configuration (Env : Type) (self : AIGenerator Env)
    (system_content : string) (tools : list ToolDef) (max_rounds c : Z)
    (messages : list Message) (response : Response)
    (calls : list (ApiParams * Reply Response)) (out : Outcome Response) :
  rounds self system_content tools max_rounds c messages response calls out ->
  Forall (fun call =>
            p_model (fst call) = bp_model (base_params self) /\
            p_temperature (fst call) = bp_temperature (base_params self) /\
            p_max_tokens (fst call) = bp_max_tokens (base_params self) /\
            p_system (fst call) = system_content) calls.
Proof.
  induction 1; repeat constructor; auto.
Qed.

(** X2.  A generator built by [__init__] sends the same configuration with
    every call of a run: its model, temperature 0, at most 800 tokens, and
    one system text.  The system text is the system prompt alone when the
    conversation history is absent or empty, and otherwise the prompt, a
    blank line, the line ["Previous conversation:"] and the history; the
    history never enters the messages. *)
Theorem calls_share_configuration (Env : Type) (system_prompt : string)
    (endpoint : Client Env) (model_name : string)
    (query : string) (conversation_history : option string)
    (tools : option (list ToolDef)) (tool_manager : option (ToolManager Env))
    (max_rounds : option Z) (env : Env) :
  let run := generate_response (init system_prompt endpoint model_name) query
               conversation_history tools tool_manager max_rounds env in
  let system_content :=
    match conversation_history with
    | Some (String c history) =>
        (system_prompt ++ newline ++ newline ++ "Previous conversation:"
         ++ newline ++ String c history)%string
    | _ => system_prompt
    end in
  Forall (fun call =>
            p_model (fst call) = model_name /\
            p_temperature (fst call) = 0 /\
            p_max_tokens (fst call) = 800 /\
            p_system (fst call) = system_content)
         (api_calls (trace run)).
Proof.
  intros run system_content.
  destruct (generate_response_cases (init system_prompt endpoint model_name)
              query conversation_history tools tool_manager max_rounds env)
    as (calls & Hcalls & Hcase).
  fold run in Hcalls, Hcase. rewrite Hcalls.
  constructor; [now repeat split|].
  set (params := first_params
                   (base_params (init system_prompt endpoint model_name))
                   (SYSTEM_PROMPT (init system_prompt endpoint model_name))
                   query conversation_history tools) in *.
  destruct (fst (client (init system_prompt endpoint model_name) params env))
    as [response|e].
  - destruct tool_manager as [tm|].
    + destruct Hcase as (out & last & Hrounds & _).
      exact (rounds_configuration Hrounds).
    + destruct Hcase as [-> _]. constructor.
  - assert (Hnil : calls = []) by (destruct tool_manager; apply Hcase).
    rewrite Hnil. constructor.
Qed.

(** X3.  The first call offers the tools only when the caller passed a
    non-empty list, and then with automatic tool choice; without tools it
    carries neither key.  Every later call always carries a tools list and
    automatic tool choice: the caller's list, or the empty list when no
    tools were passed. *)
Theorem tools_offered_in_calls (Env : Type) (self : AIGenerator Env)
    (query : string) (conversation_history : option string)
    (tools : option (list ToolDef)) (tool_manager : option (ToolManager Env))
    (max_rounds : option Z) (env : Env) :
  let run := generate_response self query conversation_history tools
               tool_manager max_rounds env in
  forall i params reply,
    nth_error (api_calls (trace run)) i = Some (params, reply) ->
    (i = 0%nat ->
     p_tools params = (if truthy_list tools then tools else None) /\
     p_tool_choice params = (if truthy_list tools then Some Auto else None)) /\
    ((0 < i)%nat ->
     p_tools params = Some (match tools with Some t => t | None => [] end) /\
     p_tool_choice params = Some Auto).
Proof.
  intros run i params reply Hnth.
  destruct (generate_response_cases self query conversation_history tools
              tool_manager max_rounds env) as (calls & Hcalls & Hcase).
  fold run in Hcalls, Hcase. rewrite Hcalls in Hnth.
  set (params0 := first_params (base_params self) (SYSTEM_PROMPT self) query
                    conversation_history tools) in *.
  split.
  - intros ->. simpl in Hnth. inversion Hnth; subst. now split.
  - intros Hpos. destruct i as [|i]; [lia|]. simpl in Hnth.
    assert (Hin : In (params, reply) calls) by (eapply nth_error_In; eauto).
    assert (Htools : round_tools tools
                     = match tools with Some t => t | None => [] end)
      by (destruct tools as [[|t ts]|]; reflexivity).
    destruct (fst (client self params0 env)) as [response|e].
    + destruct tool_manager as [tm|].
      * destruct Hcase as (out & last & Hrounds & _).
        pose proof (proj1 (Forall_forall _ calls)
                      (rounds_offers_tools Hrounds) _ Hin) as [Ht Hc].
        simpl in Ht, Hc. rewrite <- Htools. now split.
      * destruct Hcase as [-> _]. contradiction.
    + assert (Hnil : calls = []) by (destruct tool_manager; apply Hcase).
      rewrite Hnil in Hin. contradiction.
Qed.

Lemma tools_offered_in_calls_witness :
  exists params reply,
    nth_error (api_calls (trace unoffered_run)) 1 = Some (params, reply) /\
    (0 < 1)%nat /\
    p_tools params = Some [] /\ p_tool_choice params = Some Auto.
Proof.
  do 2 eexists. split; [reflexivity|]. split; [lia|].
  refine (proj2 (@tools_offered_in_calls MockEnv ai_gen
            "Keep searching for more information" None None
            (Some mock_tool_manager) (Some 2) persistent_env 1%nat _ _
            eq_refl) _).
  lia.
Defined.

(** ** The round limit *)

Lemma rounds_loop_calls_bounded (Env : Type) (self : AIGenerator Env)
    (tool_manager : ToolManager Env) (system_content : string)
    (tools : list ToolDef) (max_rounds : Z) (fuel : nat) :
  forall messages response rounds_completed env,
    (length (api_calls (trace (rounds_loop fuel self system_content tools
                                 tool_manager max_rounds messages response
                                 rounds_completed env)))
     <= Z.to_nat (max_rounds - rounds_completed))%nat.
Proof.
  induction fuel as [|fuel IH]; intros messages response c env; simpl;
    destruct (String.eqb (stop_reason response) "tool_use") eqn:Hstop;
    destruct (c <? max_rounds) eqn:Hlt; simpl; try lia.
  apply Z.ltb_lt in Hlt.
  pose proof (execute_single_round_run self tool_manager messages
                system_content tools response env) as Hrun.
  cbv zeta in Hrun. unfold bind. rewrite Hrun. clear Hrun.
  cbn [outcome env_after trace].
  set (env' := snd (run_tools tool_manager (tool_uses (content response)) env)).
  set (params := round_params self system_content tools
                   (round_messages messages response
                      (round_results tool_manager response env))).
  destruct (fst (client self params env')) as [next_response|e];
    cbn [outcome env_after trace].
  - rewrite !api_calls_app, api_calls_tool_events.
    cbn [api_calls app length].
    specialize (IH (round_messages messages response
                      (round_results tool_manager response env))
                   next_response (c + 1) (snd (client self params env'))).
    lia.
  - rewrite api_calls_app, api_calls_tool_events. cbn [api_calls app length].
    lia.
Qed.

(** X4.  The round test of the loop bounds the calls, whatever the endpoint
    and the tools do: entered after [c] rounds, the loop makes at most
    [max(R - c, 0)] calls, however much fuel the model gives it, [R] being
    the round limit.  So every run comes to its end (it is never the fuel
    that stops it) within [1 + max(R, 0)] calls; and with a limit of zero
    or below the run is the first call alone, its result read from that
    reply, whatever the model asks for. *)
Theorem round_limit_never_exceeded (Env : Type) (self : AIGenerator Env)
    (query : string) (conversation_history : option string)
    (tools : option (list ToolDef)) (tool_manager : option (ToolManager Env))
    (max_rounds : option Z) (env : Env) :
  let run := generate_response self query conversation_history tools
               tool_manager max_rounds env in
  (forall fuel tm system_content offered messages response c loop_env,
      (length (api_calls
                 (trace (rounds_loop fuel self system_content offered tm
                           (rounds_limit max_rounds) messages response c
                           loop_env)))
       <= Z.to_nat (rounds_limit max_rounds - c))%nat) /\
  outcome run <> OutOfFuel /\
  (length (api_calls (trace run)) <= S (Z.to_nat (rounds_limit max_rounds)))%nat /\
  (rounds_limit max_rounds <= 0 ->
   exists params reply,
     trace run = [ApiCall params reply] /\ outcome run = answer_of reply).
Proof.
  intros run.
  split; [intros; apply rounds_loop_calls_bounded|].
  split; [apply generate_response_total|].
  assert (Hbound : (length (api_calls (trace run))
                    <= S (Z.to_nat (rounds_limit max_rounds)))%nat).
  { unfold run. rewrite generate_response_trace.
    set (params := first_params (base_params self) (SYSTEM_PROMPT self) query
                     conversation_history tools).
    destruct (fst (client self params env)) as [response|e]; [|simpl; lia].
    destruct tool_manager as [tm|]; [|simpl; lia].
    cbn [api_calls length].
    pose proof (rounds_loop_calls_bounded self tm (p_system params)
                  (round_tools tools) (rounds_limit max_rounds)
                  (Z.to_nat (rounds_limit max_rounds)) (p_messages params)
                  response 0 (snd (client self params env))) as Hloop.
    rewrite Z.sub_0_r in Hloop. lia. }
  split; [exact Hbound|].
  intros Hlimit.
  set (params := first_params (base_params self) (SYSTEM_PROMPT self) query
                   conversation_history tools).
  assert (Htrace : trace run = [ApiCall params (fst (client self params env))]).
  { unfold run. rewrite generate_response_trace. fold params. f_equal.
    destruct (fst (client self params env)) as [response|e]; [|reflexivity].
    destruct tool_manager as [tm|]; [|reflexivity].
    replace (Z.to_nat (rounds_limit max_rounds)) with 0%nat by lia.
    simpl.
    assert (Hlt : (0 <? rounds_limit max_rounds) = false)
      by (apply Z.ltb_ge; lia).
    now rewrite Hlt, andb_false_r. }
  exists params, (fst (client self params env)).
  split; [exact Htrace|].
  destruct (generate_response_last self query conversation_history tools
              tool_manager max_rounds env) as (p & r & Hlast & Hout).
  fold run in Hlast, Hout. rewrite Htrace in Hlast. simpl in Hlast.
  inversion Hlast; subst. exact Hout.
Qed.

Lemma round_limit_never_exceeded_witness :
  rounds_limit (Some (-1)) <= 0 /\
  outcome negative_rounds_run = Raised AttributeError /\
  exists params reply,
    trace negative_rounds_run = [ApiCall params reply] /\
    outcome negative_rounds_run = answer_of reply.
Proof.
  assert (H : rounds_limit (Some (-1)) <= 0) by (simpl; lia).
  refine (conj H (conj eq_refl _)).
  exact (proj2 (proj2 (proj2 (@round_limit_never_exceeded MockEnv ai_gen
           "Keep searching for more information" None (Some [search_def])
           (Some mock_tool_manager) (Some (-1)) persistent_env))) H).
Defined.

(** X5.  The tools dispatched in a run are exactly the tool requests of
    the replies that a round followed, that is of every reply but the
    last, each request once, in the order of the replies and of their
    blocks, with the name and the input of the request.  The requests of
    the last reply are never dispatched. *)
Theorem dispatches_follow_requests (Env : Type) (self : AIGenerator Env)
    (query : string) (conversation_history : option string)
    (tools : option (list ToolDef)) (tool_manager : option (ToolManager Env))
    (max_rounds : option Z) (env : Env) :
  let run := generate_response self query conversation_history tools
               tool_manager max_rounds env in
  map fst (tool_calls (trace run))
  = flat_map requests_of (removelast (api_replies (trace run))).
Proof.
  intros run. unfold run, api_replies. rewrite generate_response_trace.
  set (params := first_params (base_params self) (SYSTEM_PROMPT self) query
                   conversation_history tools).
  destruct (fst (client self params env)) as [response|e]; [|reflexivity].
  destruct tool_manager as [tm|]; [|reflexivity].
  cbn [tool_calls api_calls map snd].
  exact (rounds_loop_dispatches self tm (p_system params) (round_tools tools)
           (rounds_limit max_rounds) (Z.to_nat (rounds_limit max_rounds))
           (p_messages params) response 0 (snd (client self params env))).
Qed.

(** ** The shape of the buffer *)

Lemma round_roles_length (k : nat) : length (round_roles k) = S (2 * k).
Proof.
  induction k as [|k IH]; simpl; [reflexivity|].
  rewrite length_app, IH. simpl. lia.
Qed.

(** X6.  The buffer sent with call number [k + 1] starts with the user's
    query and holds between [k + 1] and [2k + 1] messages.  When each of
    the [k] responses before it holds at least one tool request, the roles
    alternate: user, then assistant and user for every round, [2k + 1]
    messages in all. *)
Theorem buffer_shape (Env : Type) (self : AIGenerator Env)
    (query : string) (conversation_history : option string)
    (tools : option (list ToolDef)) (tool_manager : option (ToolManager Env))
    (max_rounds : option Z) (env : Env) :
  let run := generate_response self query conversation_history tools
               tool_manager max_rounds env in
  forall k params reply,
    nth_error (api_calls (trace run)) k = Some (params, reply) ->
    hd_error (p_messages params) = Some (mkMessage "user" (QueryText query)) /\
    (S k <= length (p_messages params) <= S (2 * k))%nat /\
    ((forall j response,
         (j < k)%nat ->
         nth_error (api_replies (trace run)) j = Some (Ok response) ->
         tool_uses (content response) <> []) ->
     map role (p_messages params) = round_roles k).
Proof.
  intros run k.
  induction k as [|k IH]; intros params reply Hnth.
  - destruct (generate_response_cases self query conversation_history tools
                tool_manager max_rounds env) as (calls & Hcalls & _).
    fold run in Hcalls. rewrite Hcalls in Hnth. simpl in Hnth.
    inversion Hnth; subst. simpl. repeat split; auto.
  - destruct (nth_error (api_calls (trace run)) k) as [[params0 reply0]|]
      eqn:Hprev.
    2:{ exfalso. apply nth_error_None in Hprev.
        assert (Hsome : nth_error (api_calls (trace run)) (S k) <> None)
          by congruence.
        apply nth_error_Some in Hsome. lia. }
    destruct (IH params0 reply0 eq_refl) as (Hhd & Hlen & Hroles).
    destruct (generate_response_step self query conversation_history tools
                tool_manager max_rounds env k Hprev Hnth)
      as (response & results & Hreply & Hids & Hmsgs).
    rewrite Hmsgs. split; [|split].
    + destruct (p_messages params0); [simpl in Hlen; lia | exact Hhd].
    + rewrite length_app. destruct (nonempty results); simpl; lia.
    + intros Hall.
      assert (Hne : nonempty results = true).
      { assert (Huses : tool_uses (content response) <> []).
        { apply (Hall k response); [lia|].
          unfold api_replies. rewrite nth_error_map, Hprev, Hreply.
          reflexivity. }
        destruct results; [|reflexivity].
        simpl in Hids. destruct (tool_uses (content response));
          [contradiction | discriminate]. }
      rewrite Hne, map_app, Hroles; [reflexivity|].
      intros j r Hj. apply Hall. lia.
Qed.

Lemma two_rounds_requests :
  forall j response,
    (j < 2)%nat ->
    nth_error (api_replies (trace two_rounds_run)) j = Some (Ok response) ->
    tool_uses (content response) <> [].
Proof.
  intros [|[|j]] response Hj Hnth; [| |lia];
    inversion Hnth; subst; discriminate.
Defined.

Lemma buffer_shape_witness :
  exists params reply,
    nth_error (api_calls (trace two_rounds_run)) 2 = Some (params, reply) /\
    map role (p_messages params)
    = ["user"; "assistant"; "user"; "assistant"; "user"].
Proof.
  do 2 eexists. split; [reflexivity|].
  exact (proj2 (proj2 (@buffer_shape MockEnv ai_gen
           "Tell me about MCP course structure and basic concepts" None
           (Some [outline_def; search_def]) (Some mock_tool_manager) (Some 2)
           two_rounds_env 2%nat _ _ eq_refl)) two_rounds_requests).
Defined.

(** ** Raising the round limit *)

(** X7.  A run that ends on a reply that does not ask for tools (an answer
    of the model, or a failure of the endpoint) did not need its round
    limit: under any larger limit the same events happen and the same
    result comes out. *)
Theorem larger_limit_same_run (Env : Type) (self : AIGenerator Env)
    (query : string) (conversation_history : option string)
    (tools : option (list ToolDef)) (tool_manager : option (ToolManager Env))
    (env : Env) (R R' : Z) :
  let run := generate_response self query conversation_history tools
               tool_manager (Some R) env in
  R <= R' ->
  (forall params reply,
      last_of (api_calls (trace run)) = Some (params, reply) ->
      ~ requests_tools reply) ->
  generate_response self query conversation_history tools tool_manager
    (Some R') env = run.
Proof.
  intros run Hle Hlast.
  pose proof (generate_response_trace self query conversation_history tools
                tool_manager (Some R) env) as Htrace.
  cbv zeta in Htrace. fold run in Htrace.
  pose proof (generate_response_first_call self query conversation_history
                tools tool_manager (Some R) env) as Hrun.
  pose proof (generate_response_first_call self query conversation_history
                tools tool_manager (Some R') env) as Hrun'.
  cbv zeta in Hrun, Hrun'. fold run in Hrun. rewrite Hrun, Hrun'.
  set (params := first_params (base_params self) (SYSTEM_PROMPT self) query
                   conversation_history tools) in *.
  destruct (fst (client self params env)) as [response|e]; [|reflexivity].
  destruct tool_manager as [tm|]; [|reflexivity].
  destruct (String.eqb (stop_reason response) "tool_use"); [|reflexivity].
  simpl rounds_limit in *.
  set (loop := rounds_loop (Z.to_nat R) self (p_system params)
                 (round_tools tools) tm R (p_messages params) response 0
                 (snd (client self params env))) in *.
  assert (Hcap : rounds_loop (Z.to_nat R') self (p_system params)
                   (round_tools tools) tm R' (p_messages params) response 0
                   (snd (client self params env)) = loop).
  { apply rounds_loop_cap; try lia.
    pose proof (@rounds_loop_rounds Env self tm (p_system params)
                  (round_tools tools) R (Z.to_nat R) (p_messages params)
                  response 0 (snd (client self params env))) as Hrounds.
    cbv zeta in Hrounds. fold loop in Hrounds.
    assert (Hfuel : (Z.to_nat (R - 0) <= Z.to_nat R)%nat) by lia.
    specialize (Hrounds Hfuel).
    destruct (rounds_last Hrounds) as (last & Hl & Hout & _).
    change (exchange response (api_calls (trace loop)))
      with (map snd ((params, Ok response) :: api_calls (trace loop))) in Hl.
    rewrite last_of_map in Hl.
    destruct (last_of ((params, Ok response) :: api_calls (trace loop)))
      as [[p r]|] eqn:Hcalls; [|discriminate].
    simpl in Hl. inversion Hl; subst r.
    assert (Hnot : ~ requests_tools last).
    { apply (Hlast p). rewrite Htrace. exact Hcalls. }
    fold loop. rewrite Hout. destruct last as [r|e]; simpl; [|exact I].
    intros Hstop. apply Hnot. now exists r. }
  unfold _execute_rounds.
  change (match p_tools params with Some t => t | None => [] end)
    with (round_tools tools).
  unfold bind. fold loop. now rewrite Hcap.
Qed.

Lemma one_round_ends_by_itself :
  forall params reply,
    last_of (api_calls (trace one_round_run)) = Some (params, reply) ->
    ~ requests_tools reply.
Proof.
  intros params reply Hlast (response & Hreply & Hstop).
  subst reply. vm_compute in Hlast. inversion Hlast; subst.
  simpl in Hstop. discriminate.
Defined.

Lemma larger_limit_same_run_witness :
  2 <= 5 /\
  generate_response ai_gen "What is Python?" None (Some [search_def])
    (Some mock_tool_manager) (Some 5) preamble_env = one_round_run.
Proof.
  assert (H : 2 <= 5) by lia.
  refine (conj H _).
  exact (@larger_limit_same_run MockEnv ai_gen "What is Python?" None
           (Some [search_def]) (Some mock_tool_manager) preamble_env 2 5 H
           one_round_ends_by_itself).
Defined.

Lemma rounds_loop_extends (Env : Type) (self : AIGenerator Env)
    (tool_manager : ToolManager Env) (system_content : string)
    (tools : list ToolDef) (max_rounds max_rounds' : Z) (fuel : nat) :
  forall fuel' messages response rounds_completed env,
    max_rounds <= max_rounds' ->
    (Z.to_nat (max_rounds - rounds_completed) <= fuel)%nat ->
    (Z.to_nat (max_rounds' - rounds_completed) <= fuel')%nat ->
    exists later,
      trace (rounds_loop fuel' self system_content tools tool_manager
               max_rounds' messages response rounds_completed env)
      = trace (rounds_loop fuel self system_content tools tool_manager
                 max_rounds messages response rounds_completed env)
        ++ later.
Proof.
  induction fuel as [|fuel IH];
    intros fuel' messages response c env Hle Hfuel Hfuel'; simpl;
    destruct (String.eqb (stop_reason response) "tool_use") eqn:Hstop;
    destruct (c <? max_rounds) eqn:Hlt; simpl;
    try (eexists; reflexivity).
  apply Z.ltb_lt in Hlt.
  destruct fuel' as [|fuel']; [lia|]. simpl. rewrite Hstop.
  assert (Hlt' : (c <? max_rounds') = true) by (apply Z.ltb_lt; lia).
  rewrite Hlt'. simpl. unfold bind.
  destruct (outcome (_execute_single_round self messages system_content
                       tools tool_manager response env))
    as [[messages' next_response]|e|]; simpl;
    try (exists []; now rewrite app_nil_r).
  destruct (IH fuel' messages' next_response (c + 1)
              (env_after (_execute_single_round self messages
                            system_content tools tool_manager response env)))
    as (later & Hlater); try lia.
  exists later. now rewrite Hlater, app_assoc.
Qed.

(** X8.  Raising the round limit never changes what a run has already
    done: the events of the run under a limit [R] are the first events of
    the run under any limit [R' >= R]. *)
Theorem larger_limit_extends_run (Env : Type) (self : AIGenerator Env)
    (query : string) (conversation_history : option string)
    (tools : option (list ToolDef)) (tool_manager : option (ToolManager Env))
    (env : Env) (R R' : Z) :
  R <= R' ->
  exists later,
    trace (generate_response self query conversation_history tools
             tool_manager (Some R') env)
    = trace (generate_response self query conversation_history tools
               tool_manager (Some R) env) ++ later.
Proof.
  intros Hle. rewrite !generate_response_trace.
  set (params := first_params (base_params self) (SYSTEM_PROMPT self) query
                   conversation_history tools).
  destruct (fst (client self params env)) as [response|e];
    [|now exists []].
  destruct tool_manager as [tm|]; [|now exists []].
  simpl rounds_limit.
  destruct (@rounds_loop_extends Env self tm (p_system params)
              (round_tools tools) R R' (Z.to_nat R) (Z.to_nat R')
              (p_messages params) response 0 (snd (client self params env)))
    as (later & Hlater); try lia.
  exists later. now rewrite Hlater.
Qed.

Lemma larger_limit_extends_run_witness :
  1 <= 2 /\
  exists later,
    trace persistent_run
    = trace (generate_response ai_gen "Keep searching for more information"
               None (Some [search_def]) (Some mock_tool_manager) (Some 1)
               persistent_env) ++ later.
Proof.
  assert (H : 1 <= 2) by lia.
  refine (conj H _).
  exact (@larger_limit_extends_run MockEnv ai_gen
           "Keep searching for more information" None (Some [search_def])
           (Some mock_tool_manager) persistent_env 1 2 H).
Defined.
